(** * Gap Score reference validators: a shallow embedding

    This development embeds the two reference validators of the
    gap-score-spec repository:

    - [validators/gap-score.go]  (types, [classifyGap], [round1],
      [loadResults], [buildReport], [main]);
    - [validators/gap-score.sh]  (the integer-arithmetic shell validator).

    Go's [float64] is IEEE 754 binary64.  It is modelled by [spec_float]
    with precision 53 and maximal exponent 1024, whose operations round to
    nearest, ties to even, exactly as the hardware does.  Go's [int] is
    modelled by [Z]: every integer of the program is a length of a slice or
    a difference of two such lengths, so no wrap-around can occur.  Bash
    arithmetic is 64-bit signed and its wrap-around is written out. *)

From Stdlib Require Import ZArith Lia List.
From Stdlib Require Import SpecFloat.
From stdpp Require Import base decidable option list strings gmap.

Local Open Scope string_scope.
Local Open Scope Z_scope.
Local Open Scope list_scope.

(** ** IEEE 754 binary64 *)

Module F64.

Definition prec : Z := 53.
Definition emax : Z := 1024.

Definition float64 : Type := spec_float.

(** Conversion [float64(n)] of an integer, rounded to nearest even. *)
Definition of_int (n : Z) : float64 := binary_normalize prec emax n 0 false.

Definition mul (x y : float64) : float64 := SFmul prec emax x y.
Definition div (x y : float64) : float64 := SFdiv prec emax x y.

(** Go's [x < y], [x <= y] and [x > y] on float64: false on NaN. *)
Definition ltb (x y : float64) : bool := SFltb x y.
Definition leb (x y : float64) : bool := SFleb x y.
Definition gtb (x y : float64) : bool := SFltb y x.

(** The zero value of a [float64] variable. *)
Definition zero : float64 := S754_zero false.

(** [math.Round]: the nearest integer, halves rounded away from zero;
    zeros, infinities and NaN are returned unchanged, and so is every
    value whose exponent shows it to be an integer already. *)
Definition Round (x : float64) : float64 :=
  match x with
  | S754_finite s m e =>
      if 0 <=? e then x
      else
        let d := 2 ^ (- e) in
        let q := Z.pos m / d in
        let r := Z.pos m mod d in
        let q' := if d <=? 2 * r then q + 1 else q in
        binary_normalize prec emax (if s then - q' else q') 0 s
  | _ => x
  end.

(** The binary64 value nearest to the decimal [k/10]: what a one-decimal
    literal such as [15.1] denotes, what [strconv.ParseFloat] returns for
    it, and what a correctly rounded division of [k] by [10] yields. *)
Definition decimal1 (k : Z) : float64 := div (of_int k) (of_int 10).

End F64.

Export F64.

(** ** Data model of gap-score.go *)

Definition specVersion : string := "1.0.0".

Definition categories : list string :=
  ["happy_path"; "edge_case"; "error_handling"; "security"].

Record levelDef := {
  threshold : float64;
  name : string;
  indicator : string
}.

Definition levels : list levelDef := [
  {| threshold := of_int 0;   name := "perfect";     indicator := "✅" |};
  {| threshold := of_int 15;  name := "minor";       indicator := "🟢" |};
  {| threshold := of_int 30;  name := "moderate";    indicator := "🟡" |};
  {| threshold := of_int 50;  name := "significant"; indicator := "🟠" |};
  {| threshold := of_int 100; name := "critical";    indicator := "🔴" |}
].

(** One entry of the "tests" array.  The optional JSON fields are decoded
    into the empty string when absent. *)
Module TestResult.
Record t := {
  Name : string;
  Status : string;
  Category : string;
  Expected : string;
  Actual : string;
  Message : string
}.
End TestResult.

(** The decoded input file; [Tests] is [None] for a nil slice. *)
Record inputFile := { Tests : option (list TestResult.t) }.

Module Failure.
Record t := {
  TestName : string;
  Category : string;
  Expected : string;
  Actual : string;
  Message : string
}.
End Failure.

Record reportSummary := {
  GapScore : float64;
  Level : string
}.

Record testStats := {
  Total : Z;
  Passed : Z;
  Failed : Z
}.

Record CategoryComparison := {
  Sealed : Z;
  Open : Z;
  Delta : Z
}.

(** The report.  [OpenTests] is a pointer ([None] is nil) and
    [CoverageComparison] a map ([None] is the nil map). *)
Module Report.
Record t := {
  SpecVersion : string;
  Report : reportSummary;
  SealedTests : testStats;
  OpenTests : option testStats;
  Failures : list Failure.t;
  CoverageComparison : option (gmap string CategoryComparison)
}.
End Report.

(** [len] of a slice. *)
Definition len {A : Type} (l : list A) : Z := Z.of_nat (length l).

(** ** classifyGap and round1 *)

(** The [for _, l := range levels] loop with its early return. *)
Fixpoint classifyGap_loop (ls : list levelDef) (score : float64)
  : option (string * string) :=
  match ls with
  | [] => None
  | l :: rest =>
      if leb score (threshold l) then Some (name l, indicator l)
      else classifyGap_loop rest score
  end.

Definition classifyGap (score : float64) : string * string :=
  match classifyGap_loop levels score with
  | Some r => r
  | None => ("critical", "🔴")
  end.

Definition round1 (f : float64) : float64 :=
  div (Round (mul f (of_int 10))) (of_int 10).

(** ** buildReport *)

Definition is_failed (t : TestResult.t) : bool :=
  bool_decide (TestResult.Status t = "failed").

(** [for _, t := range sealed { if t.Status == "failed" { append } }] *)
Definition collect_failures (sealed : list TestResult.t) : list TestResult.t :=
  fold_left (fun acc t => if is_failed t then acc ++ [t] else acc) sealed [].

Definition to_failure (f : TestResult.t) : Failure.t :=
  let cat := TestResult.Category f in
  let cat := if bool_decide (cat = EmptyString) then "unknown" else cat in
  {| Failure.TestName := TestResult.Name f;
     Failure.Category := cat;
     Failure.Expected := TestResult.Expected f;
     Failure.Actual := TestResult.Actual f;
     Failure.Message := TestResult.Message f |}.

(** [for _, f := range rawFailures { failures = append(failures, ...) }] *)
Definition project_failures (rawFailures : list TestResult.t) : list Failure.t :=
  fold_left (fun acc f => acc ++ [to_failure f]) rawFailures [].

(** [for _, t := range open { if t.Status == "failed" { oFailed++ } }] *)
Definition count_failed (tests : list TestResult.t) : Z :=
  fold_left (fun n t => if is_failed t then n + 1 else n) tests 0.

(** [for _, t := range tests { if t.Category == cat { count++ } }] *)
Definition count_category (cat : string) (tests : list TestResult.t) : Z :=
  fold_left
    (fun n t => if bool_decide (TestResult.Category t = cat) then n + 1 else n)
    tests 0.

(** [for _, cat := range categories { comparison[cat] = ... }] *)
Definition build_comparison (sealed open : list TestResult.t)
  : gmap string CategoryComparison :=
  fold_left
    (fun comparison cat =>
       let sCount := count_category cat sealed in
       let oCount := count_category cat open in
       <[cat := {| Sealed := sCount; Open := oCount; Delta := sCount - oCount |}]>
         comparison)
    categories ∅.

Definition buildReport (sealed open : list TestResult.t) (hasOpen : bool)
  : Report.t :=
  let total := len sealed in
  let rawFailures := collect_failures sealed in
  let passed := total - len rawFailures in
  let score :=
    if 0 <? total
    then round1 (mul (div (of_int (len rawFailures)) (of_int total)) (of_int 100))
    else zero in
  let level := fst (classifyGap score) in
  let failures := project_failures rawFailures in
  let report :=
    {| Report.SpecVersion := specVersion;
       Report.Report := {| GapScore := score; Level := level |};
       Report.SealedTests :=
         {| Total := total; Passed := passed; Failed := len rawFailures |};
       Report.OpenTests := None;
       Report.Failures := failures;
       Report.CoverageComparison := None |} in
  if hasOpen then
    let oTotal := len open in
    let oFailed := count_failed open in
    {| Report.SpecVersion := Report.SpecVersion report;
       Report.Report := Report.Report report;
       Report.SealedTests := Report.SealedTests report;
       Report.OpenTests :=
         Some {| Total := oTotal; Passed := oTotal - oFailed; Failed := oFailed |};
       Report.Failures := Report.Failures report;
       Report.CoverageComparison := Some (build_comparison sealed open) |}
  else report.

(** ** main

    The standard output is kept as the sequence of print calls with their
    arguments; the rendering of a number by [Printf] is not modelled. *)

Inductive OutLine :=
  | GapScoreLine (score : float64) (indicator level : string)
  | SealedLine (passed total : Z)
  | OpenLine (passed total : Z)
  | FailuresHeader (n : Z)
  | FailureLine (test_name message : string)
  | JsonText (out : string).

Inductive ErrLine :=
  | ErrFlag
  | ErrUsage
  | ErrSealedRequired
  | ErrLoadingSealed
  | ErrLoadingOpen
  | ErrMarshaling.

Record Outcome := {
  stdout : list OutLine;
  stderr : list ErrLine;
  exit_code : Z
}.

Definition fatal (e : ErrLine) : Outcome :=
  {| stdout := []; stderr := [e]; exit_code := 2 |}.

(** The lines printed under [--format summary]. *)
Definition summary (report : Report.t) : list OutLine :=
  let score := GapScore (Report.Report report) in
  let level := Level (Report.Report report) in
  let indicator := snd (classifyGap score) in
  [GapScoreLine score indicator level;
   SealedLine (Passed (Report.SealedTests report))
              (Total (Report.SealedTests report))]
  ++ match Report.OpenTests report with
     | Some o => [OpenLine (Passed o) (Total o)]
     | None => []
     end
  ++ (if 0 <? len (Report.Failures report)
      then FailuresHeader (len (Report.Failures report))
           :: map (fun f => FailureLine (Failure.TestName f) (Failure.Message f))
                  (Report.Failures report)
      else []).

(** The threshold test that ends [main]. *)
Definition gate_code (hasThreshold : bool) (thresholdVal score : float64) : Z :=
  if hasThreshold && gtb score thresholdVal then 1 else 0.

Section Main.

(** The environment: [os.ReadFile], [json.Unmarshal] into an [inputFile]
    and [json.MarshalIndent] of a report; [None] stands for a non-nil
    error. *)
Variable ReadFile : string -> option string.
Variable Unmarshal : string -> option inputFile.
Variable MarshalIndent : Report.t -> option string.

Definition loadResults (path : string) : option (list TestResult.t) :=
  match ReadFile path with
  | None => None
  | Some data =>
      match Unmarshal data with
      | None => None
      | Some input =>
          match Tests input with
          | None => Some []
          | Some tests => Some tests
          end
      end
  end.

(** What is written to the standard output, or [None] when marshaling
    fails. *)
Definition render (format : string) (report : Report.t)
  : option (list OutLine) :=
  if bool_decide (format = "summary") then Some (summary report)
  else
    match MarshalIndent report with
    | None => None
    | Some out => Some [JsonText out]
    end.

(** [main] after flag parsing: the values of [--sealed], [--open] and
    [--format], and the two variables set by [--threshold].  Without
    [--sealed] it writes its diagnostic and then the usage text of
    [flag.Usage]. *)
Definition main (sealedPath openPath format : string)
           (hasThreshold : bool) (thresholdVal : float64) : Outcome :=
  if bool_decide (sealedPath = EmptyString)
  then {| stdout := []; stderr := [ErrSealedRequired; ErrUsage];
          exit_code := 2 |}
  else
    match loadResults sealedPath with
    | None => fatal ErrLoadingSealed
    | Some sealed =>
        let hasOpen := negb (bool_decide (openPath = EmptyString)) in
        match (if hasOpen then loadResults openPath else Some []) with
        | None => fatal ErrLoadingOpen
        | Some open =>
            let report := buildReport sealed open hasOpen in
            match render format report with
            | None => fatal ErrMarshaling
            | Some out =>
                {| stdout := out;
                   stderr := [];
                   exit_code :=
                     gate_code hasThreshold thresholdVal
                               (GapScore (Report.Report report)) |}
            end
        end
    end.



End Main.

(** ** gap-score.sh

    A positional parameter of the script is a string.  The script treats
    it as a number in two places that read it differently: the [test]
    builtin ([[ "$x" -eq 0 ]]) accepts a decimal integer inside the signed
    64-bit range and fails, with status 2 and so as a false condition, on
    anything else; arithmetic expansion ([$(( x * 10 ))]) reads a decimal
    integer of any size, wrapping it to 64 bits, and stops on a number with
    a decimal point.  [Arg] has the two kinds of parameter the validator is
    called with: [Int z], the decimal numeral of [z] without leading zeros,
    and [Decimal text], a number written with a decimal point, such as
    11.1.  Other strings (names of shell variables, expressions, octal or
    hexadecimal numerals) are outside this type.  Only the standard output
    and the exit status are kept; the messages of the shell on the error
    stream are not. *)

Module Sh.

(** Bash arithmetic is 64-bit signed. *)
Definition wrap64 (z : Z) : Z := (z + 2 ^ 63) mod 2 ^ 64 - 2 ^ 63.

Inductive Arg :=
  | Int (z : Z)
  | Decimal (text : string).

Inductive Line :=
  | Usage
  | NoSealed
  | GapScore (whole decimal : Z) (indicator level : string)
  | Sealed (passed : Z) (total failed : Arg)
  | Fail (whole decimal : Z) (threshold : Arg)
  | Pass (whole decimal : Z) (threshold : Arg).

Record Outcome := { stdout : list Line; exit_code : Z }.

(** [[ "$x" -eq 0 ]]: true for the integer 0 only; an operand that is not
    an integer of the 64-bit range makes the builtin fail, which the [if]
    takes as false. *)
Definition test_eq_zero (x : Arg) : bool :=
  match x with
  | Int z => z =? 0
  | Decimal _ => false
  end.

(** [$(( (SEALED_FAILED * 1000) / SEALED_TOTAL ))] on two integer
    parameters, each read modulo [2^64].  When the total reads as 0 the
    expansion fails with a division by 0; [gap_score] stops there. *)
Definition GAP_SCORE_X10 (SEALED_TOTAL SEALED_FAILED : Z) : Z :=
  wrap64 (Z.quot (wrap64 (wrap64 SEALED_FAILED * 1000)) (wrap64 SEALED_TOTAL)).

(** The [if]/[elif] chain that sets [LEVEL] and [INDICATOR]. *)
Definition classify (x10 : Z) : string * string :=
  if x10 =? 0 then ("perfect", "✅")
  else if x10 <=? 150 then ("minor", "🟢")
  else if x10 <=? 300 then ("moderate", "🟡")
  else if x10 <=? 500 then ("significant", "🟠")
  else ("critical", "🔴").

(** A failed arithmetic expansion leaves its variable unset; under
    [set -u] the script then stops with status 1 at the next use of the
    variable, or at the end of the enclosing [if], having printed [out]. *)
Definition stopped (out : list Line) : Outcome :=
  {| stdout := out; exit_code := 1 |}.

(** The script on its positional parameters. *)
Definition gap_score (args : list Arg) : Outcome :=
  match args with
  | SEALED_TOTAL :: SEALED_FAILED :: rest =>
      let THRESHOLD := head rest in
      if test_eq_zero SEALED_TOTAL
      then {| stdout := [NoSealed]; exit_code := 0 |}
      else
        match SEALED_TOTAL, SEALED_FAILED with
        | Int total, Int failed =>
            if wrap64 total =? 0 then stopped []
            else
              let x10 := GAP_SCORE_X10 total failed in
              let GAP_WHOLE := Z.quot x10 10 in
              let GAP_DECIMAL := Z.rem x10 10 in
              let '(LEVEL, INDICATOR) := classify x10 in
              let SEALED_PASSED := wrap64 (wrap64 total - wrap64 failed) in
              let report :=
                [GapScore GAP_WHOLE GAP_DECIMAL INDICATOR LEVEL;
                 Sealed SEALED_PASSED SEALED_TOTAL SEALED_FAILED] in
              match THRESHOLD with
              | Some (Int threshold) =>
                  let THRESHOLD_X10 := wrap64 (wrap64 threshold * 10) in
                  if THRESHOLD_X10 <? x10
                  then {| stdout :=
                            report ++ [Fail GAP_WHOLE GAP_DECIMAL (Int threshold)];
                          exit_code := 1 |}
                  else {| stdout :=
                            report ++ [Pass GAP_WHOLE GAP_DECIMAL (Int threshold)];
                          exit_code := 0 |}
              | Some (Decimal _) => stopped report
              | None => {| stdout := report; exit_code := 0 |}
              end
        | _, _ => stopped []
        end
  | _ => {| stdout := [Usage]; exit_code := 2 |}
  end.

End Sh.

(** ** The specification's rounding rule

    [failed / total * 100] rounded to one decimal digit, halves away from
    zero, as an exact rational computation; the result is in tenths. *)
Definition spec_score_x10 (failed total : Z) : Z :=
  (2000 * failed + total) / (2 * total).

(** * Vocabulary of the properties *)

(** The struct tag [json:"coverage_comparison,omitempty"]: the key is
    written unless the map is nil or has no entry. *)
Definition coverage_emitted (report : Report.t) : bool :=
  match Report.CoverageComparison report with
  | Some comparison => negb (bool_decide (comparison = ∅))
  | None => false
  end.

(** The number of tests of a suite that carry category [cat]. *)
Definition in_category (cat : string) (tests : list TestResult.t) : Z :=
  len (List.filter (fun t => bool_decide (TestResult.Category t = cat)) tests).

(** The entry the comparison holds for [cat]. *)
Definition coverage_entry (sealed open : list TestResult.t) (cat : string)
  : CategoryComparison :=
  {| Sealed := in_category cat sealed;
     Open := in_category cat open;
     Delta := in_category cat sealed - in_category cat open |}.

(** The run reads its input: [--sealed] is given and decodes to
    [sealed]; [open] is what [--open] decodes to, or nil without it. *)
Definition loads (ReadFile : string -> option string)
           (Unmarshal : string -> option inputFile)
           (sealedPath openPath : string)
           (sealed open : list TestResult.t) (hasOpen : bool) : Prop :=
  sealedPath <> EmptyString /\
  loadResults ReadFile Unmarshal sealedPath = Some sealed /\
  hasOpen = negb (bool_decide (openPath = EmptyString)) /\
  (if hasOpen then loadResults ReadFile Unmarshal openPath else Some [])
  = Some open.

(** The run prints its report: always under [summary], and under any
    other format when marshaling succeeds. *)
Definition prints (MarshalIndent : Report.t -> option string)
           (format : string) (report : Report.t) : Prop :=
  format = "summary" \/ is_Some (MarshalIndent report).

(** A check of [p] on [0 .. n-1]. *)
Fixpoint all_below (n : nat) (p : Z -> bool) : bool :=
  match n with
  | O => true
  | S n' => p (Z.of_nat n') && all_below n' p
  end.

(** Structural equality of two binary64 values, as a test. *)
Definition same_float (x y : float64) : bool :=
  match x, y with
  | S754_zero a, S754_zero b => Bool.eqb a b
  | S754_infinity a, S754_infinity b => Bool.eqb a b
  | S754_nan, S754_nan => true
  | S754_finite a m e, S754_finite b n f =>
      Bool.eqb a b && Pos.eqb m n && Z.eqb e f
  | _, _ => false
  end.

(** The Go score of [failed] failures out of [total] is the tenth that the
    specification's rounding rule gives. *)
Definition go_score_exact (total failed : Z) : bool :=
  same_float (round1 (mul (div (of_int failed) (of_int total)) (of_int 100)))
             (decimal1 (spec_score_x10 failed total)).

(** The score a run prints, in tenths: [0%] on a zero total, and
    [GAP_WHOLE.GAP_DECIMAL] otherwise. *)
Definition reported_x10 (run : Sh.Outcome) : option Z :=
  match Sh.stdout run with
  | Sh.NoSealed :: _ => Some 0
  | Sh.GapScore whole decimal _ _ :: _ => Some (10 * whole + decimal)
  | _ => None
  end.

(** The unrounded ratio [failed / total * 100] as buildReport computes it,
    before [round1]. *)
Definition raw_ratio (failed total : Z) : float64 :=
  mul (div (of_int failed) (of_int total)) (of_int 100).

(** ** Sample inputs *)

Definition failing (n : string) : TestResult.t :=
  {| TestResult.Name := n; TestResult.Status := "failed";
     TestResult.Category := "edge_case"; TestResult.Expected := "exit code 2";
     TestResult.Actual := "exit code 0"; TestResult.Message := "not blocked" |}.

Definition passing (n : string) : TestResult.t :=
  {| TestResult.Name := n; TestResult.Status := "passed";
     TestResult.Category := "happy_path"; TestResult.Expected := EmptyString;
     TestResult.Actual := EmptyString; TestResult.Message := EmptyString |}.

Definition skipped (n : string) : TestResult.t :=
  {| TestResult.Name := n; TestResult.Status := "skipped";
     TestResult.Category := EmptyString; TestResult.Expected := EmptyString;
     TestResult.Actual := EmptyString; TestResult.Message := EmptyString |}.

(** A result set of [failed] failed tests followed by [passed] passed ones. *)
Definition suite (failed passed : nat) : list TestResult.t :=
  repeat (failing "f") failed ++ repeat (passing "p") passed.

(** An environment in which every file decodes to [tests] and marshaling
    succeeds. *)
Definition sample_ReadFile (path : string) : option string := Some path.
Definition sample_Unmarshal (tests : list TestResult.t) (data : string)
  : option inputFile := Some {| Tests := Some tests |}.
Definition sample_MarshalIndent (report : Report.t) : option string :=
  Some "{}".

(** ** Further vocabulary *)

(** The test carries one of the four fixed categories. *)
Definition recognized (t : TestResult.t) : bool :=
  bool_decide (TestResult.Category t ∈ categories).

(** The position of a level name in the levels table. *)
Definition severity (level : string) : Z :=
  if bool_decide (level = "perfect") then 0
  else if bool_decide (level = "minor") then 1
  else if bool_decide (level = "moderate") then 2
  else if bool_decide (level = "significant") then 3
  else 4.

(** The failure block of the summary for a list of failed tests. *)
Definition failure_block (failed : list TestResult.t) : list OutLine :=
  match failed with
  | [] => []
  | _ :: _ =>
      FailuresHeader (len failed)
      :: map (fun t => FailureLine (TestResult.Name t) (TestResult.Message t))
             failed
  end.

(** The shell and the Go classifier give the same row for the score of
    [k] tenths. *)
Definition levels_agree (k : Z) : bool :=
  bool_decide (Sh.classify k = classifyGap (decimal1 k)).

(** [round1] leaves the score of [k] tenths as it is. *)
Definition round1_fixes (k : Z) : bool :=
  same_float (round1 (decimal1 k)) (decimal1 k).

(** Among the scores of a whole number of tenths, only 0.0 is perfect. *)
Definition perfect_only_zero (k : Z) : bool :=
  Bool.eqb (bool_decide (fst (classifyGap (decimal1 k)) = "perfect")) (k =? 0).

(** * Properties *)

(** ** The loops of buildReport as list operations *)

Section Loops.

Lemma collect_failures_acc (l acc : list TestResult.t) :
  fold_left (fun acc t => if is_failed t then acc ++ [t] else acc) l acc
  = acc ++ List.filter is_failed l.
Proof.
  revert acc; induction l as [|t l IH]; intros acc; simpl.
  - now rewrite app_nil_r.
  - rewrite IH. destruct (is_failed t); simpl; [|reflexivity].
    now rewrite <- app_assoc.
Qed.

Lemma collect_failures_filter (l : list TestResult.t) :
  collect_failures l = List.filter is_failed l.
Proof. unfold collect_failures. now rewrite collect_failures_acc. Qed.

Lemma project_failures_acc (l : list TestResult.t) (acc : list Failure.t) :
  fold_left (fun acc f => acc ++ [to_failure f]) l acc
  = acc ++ map to_failure l.
Proof.
  revert acc; induction l as [|t l IH]; intros acc; simpl.
  - now rewrite app_nil_r.
  - rewrite IH. now rewrite <- app_assoc.
Qed.

Lemma project_failures_map (l : list TestResult.t) :
  project_failures l = map to_failure l.
Proof. unfold project_failures. now rewrite project_failures_acc. Qed.

Lemma count_loop_acc {A : Type} (p : A -> bool) (l : list A) (n : Z) :
  fold_left (fun n t => if p t then n + 1 else n) l n
  = n + len (List.filter p l).
Proof.
  unfold len. revert n; induction l as [|t l IH]; intros n; simpl.
  - lia.
  - rewrite IH. destruct (p t); simpl; lia.
Qed.

Lemma count_failed_filter (l : list TestResult.t) :
  count_failed l = len (List.filter is_failed l).
Proof. unfold count_failed. now rewrite count_loop_acc. Qed.

Lemma count_category_filter (cat : string) (l : list TestResult.t) :
  count_category cat l
  = len (List.filter
           (fun t => bool_decide (TestResult.Category t = cat)) l).
Proof.
  unfold count_category.
  now rewrite (count_loop_acc
                 (fun t => bool_decide (TestResult.Category t = cat))).
Qed.

Lemma filter_length_split {A : Type} (p : A -> bool) (l : list A) :
  len l = len (List.filter p l) + len (List.filter (fun x => negb (p x)) l).
Proof.
  unfold len. induction l as [|x l IH]; simpl; [reflexivity|].
  destruct (p x); simpl; lia.
Qed.

Lemma filter_length_le {A : Type} (p : A -> bool) (l : list A) :
  0 <= len (List.filter p l) <= len l.
Proof.
  pose proof (filter_length_split p l). unfold len in *. lia.
Qed.

End Loops.

(** ** Order facts on binary64 *)

Section FloatOrder.

Lemma SFcompare_antisym (x y : float64) :
  SFcompare y x = option_map CompOpp (SFcompare x y).
Proof.
  destruct x as [sx|sx| |sx mx ex], y as [sy|sy| |sy my ey]; simpl;
    try reflexivity;
    try (destruct sx; reflexivity);
    try (destruct sy; reflexivity);
    try (destruct sx, sy; reflexivity).
  destruct sx, sy; try reflexivity;
    rewrite (Z.compare_antisym ey ex);
    destruct (ey ?= ex); simpl; try reflexivity;
    change (Pos.compare_cont Eq my mx) with (my ?= mx)%positive;
    change (Pos.compare_cont Eq mx my) with (mx ?= my)%positive;
    rewrite (Pos.compare_antisym my mx);
    destruct (my ?= mx)%positive; reflexivity.
Qed.

Lemma SFcompare_refl_not_Lt (x : float64) : SFcompare x x <> Some Lt.
Proof.
  intros H. pose proof (SFcompare_antisym x x) as A.
  rewrite H in A. discriminate.
Qed.

(** [x > x] never holds. *)
Lemma gtb_irrefl (x : float64) : gtb x x = false.
Proof.
  unfold gtb, SFltb. pose proof (SFcompare_refl_not_Lt x).
  destruct (SFcompare x x) as [[]|]; congruence.
Qed.

(** [x <= y] excludes [x > y]. *)
Lemma leb_not_gtb (x y : float64) : leb x y = true -> gtb x y = false.
Proof.
  unfold leb, gtb, SFleb, SFltb. rewrite (SFcompare_antisym x y).
  destruct (SFcompare x y) as [[]|]; simpl; congruence.
Qed.

(** [x > y] excludes [x <= y]. *)
Lemma gtb_not_leb (x y : float64) : gtb x y = true -> leb x y = false.
Proof.
  intros H. destruct (leb x y) eqn:E; [|reflexivity].
  apply leb_not_gtb in E. congruence.
Qed.

End FloatOrder.

(** ** The level classifier *)

Section Classifier.

(** The table walk is the chain of comparisons, first match first. *)
Lemma classifyGap_chain (score : float64) :
  classifyGap score =
    if leb score (of_int 0) then ("perfect", "✅")
    else if leb score (of_int 15) then ("minor", "🟢")
    else if leb score (of_int 30) then ("moderate", "🟡")
    else if leb score (of_int 50) then ("significant", "🟠")
    else ("critical", "🔴").
Proof.
  unfold classifyGap, levels.
  cbn [classifyGap_loop threshold name indicator].
  destruct (leb score (of_int 0)); [reflexivity|].
  destruct (leb score (of_int 15)); [reflexivity|].
  destruct (leb score (of_int 30)); [reflexivity|].
  destruct (leb score (of_int 50)); [reflexivity|].
  destruct (leb score (of_int 100)); reflexivity.
Qed.

(** Above a positive bound, above every smaller positive bound. *)
Lemma above_finite (m1 m2 : positive) (e1 e2 : Z) (s : float64) :
  leb (S754_finite false m1 e1) (S754_finite false m2 e2) = true ->
  gtb s (S754_finite false m2 e2) = true ->
  leb s (S754_finite false m1 e1) = false.
Proof.
  unfold leb, gtb, SFleb, SFltb.
  destruct s as [z|[]| |[] m e]; simpl; try discriminate; try reflexivity.
  change (Pos.compare_cont Eq m1 m2) with (m1 ?= m2)%positive.
  change (Pos.compare_cont Eq m2 m) with (m2 ?= m)%positive.
  change (Pos.compare_cont Eq m m1) with (m ?= m1)%positive.
  destruct (Z.compare_spec e1 e2); destruct (Z.compare_spec e2 e);
    destruct (Z.compare_spec e e1); try lia; try discriminate;
    try reflexivity; subst.
  destruct (Pos.compare_spec m1 m2); destruct (Pos.compare_spec m2 m);
    destruct (Pos.compare_spec m m1); try lia; try discriminate;
    reflexivity.
Qed.

Lemma above_zero (m2 : positive) (e2 : Z) (s : float64) :
  gtb s (S754_finite false m2 e2) = true ->
  leb s (S754_zero false) = false.
Proof.
  unfold leb, gtb, SFleb, SFltb.
  destruct s as [z|[]| |[] m e]; simpl; try discriminate; reflexivity.
Qed.

(** Every score above 50 is critical. *)
Lemma classifyGap_above_50 (score : float64) :
  gtb score (of_int 50) = true -> classifyGap score = ("critical", "🔴").
Proof.
  intros H. rewrite classifyGap_chain.
  assert (E50 : of_int 50 = S754_finite false 7036874417766400 (-47))
    by (vm_compute; reflexivity).
  assert (E30 : of_int 30 = S754_finite false 8444249301319680 (-48))
    by (vm_compute; reflexivity).
  assert (E15 : of_int 15 = S754_finite false 8444249301319680 (-49))
    by (vm_compute; reflexivity).
  assert (E0 : of_int 0 = S754_zero false) by reflexivity.
  rewrite E50 in H. rewrite E0, E15, E30, E50.
  rewrite (above_zero _ _ _ H).
  rewrite (above_finite 8444249301319680 7036874417766400 (-49) (-47)
             score eq_refl H).
  rewrite (above_finite 8444249301319680 7036874417766400 (-48) (-47)
             score eq_refl H).
  rewrite (above_finite 7036874417766400 7036874417766400 (-47) (-47)
             score eq_refl H).
  reflexivity.
Qed.

(** The level of a report and the indicator of the summary headline are
    the two components of one classification of the reported score. *)
Lemma report_level_indicator (sealed open : list TestResult.t) (hasOpen : bool) :
  let report := buildReport sealed open hasOpen in
  let score := GapScore (Report.Report report) in
  Level (Report.Report report) = fst (classifyGap score) /\
  head (summary report)
  = Some (GapScoreLine score (snd (classifyGap score)) (fst (classifyGap score))).
Proof. destruct hasOpen; split; reflexivity. Qed.

(** The shell validator classifies its tenths on the same bounds. *)
Lemma sh_classify_boundaries :
  Sh.classify 0 = ("perfect", "✅") /\
  Sh.classify 150 = ("minor", "🟢") /\
  Sh.classify 151 = ("moderate", "🟡") /\
  Sh.classify 300 = ("moderate", "🟡") /\
  Sh.classify 500 = ("significant", "🟠") /\
  Sh.classify 501 = ("critical", "🔴") /\
  forall x10, 500 < x10 -> Sh.classify x10 = ("critical", "🔴").
Proof.
  repeat (split; [reflexivity|]).
  intros x10 H. unfold Sh.classify.
  destruct (Z.eqb_spec x10 0); [lia|].
  destruct (Z.leb_spec x10 150); [lia|].
  destruct (Z.leb_spec x10 300); [lia|].
  destruct (Z.leb_spec x10 500); [lia|reflexivity].
Qed.

End Classifier.

(** C2: the classifier is a function of the score alone, walking fixed
    inclusive upper bounds in ascending order with the first match winning:
    0 is perfect, 15.0 minor, 15.1 and 30.0 moderate, 50.0 significant, 50.1
    and every score above 50 critical; the level field of the report and the
    indicator of the summary both come from this classification. *)
Theorem classifyGap_boundaries :
  classifyGap (decimal1 0) = ("perfect", "✅") /\
  classifyGap (decimal1 150) = ("minor", "🟢") /\
  classifyGap (decimal1 151) = ("moderate", "🟡") /\
  classifyGap (decimal1 300) = ("moderate", "🟡") /\
  classifyGap (decimal1 500) = ("significant", "🟠") /\
  classifyGap (decimal1 501) = ("critical", "🔴") /\
  (forall score, gtb score (decimal1 500) = true ->
                 classifyGap score = ("critical", "🔴")) /\
  (forall score,
      classifyGap score =
        if leb score (decimal1 0) then ("perfect", "✅")
        else if leb score (decimal1 150) then ("minor", "🟢")
        else if leb score (decimal1 300) then ("moderate", "🟡")
        else if leb score (decimal1 500) then ("significant", "🟠")
        else ("critical", "🔴")) /\
  (forall sealed open hasOpen,
      let report := buildReport sealed open hasOpen in
      let score := GapScore (Report.Report report) in
      Level (Report.Report report) = fst (classifyGap score) /\
      head (summary report)
      = Some (GapScoreLine score (snd (classifyGap score))
                           (fst (classifyGap score)))).
Proof.
  assert (D0 : decimal1 0 = of_int 0) by (vm_compute; reflexivity).
  assert (D15 : decimal1 150 = of_int 15) by (vm_compute; reflexivity).
  assert (D30 : decimal1 300 = of_int 30) by (vm_compute; reflexivity).
  assert (D50 : decimal1 500 = of_int 50) by (vm_compute; reflexivity).
  do 6 (split; [vm_compute; reflexivity|]).
  split; [|split].
  - intros score H. rewrite D50 in H. now apply classifyGap_above_50.
  - intros score. rewrite D0, D15, D30, D50. apply classifyGap_chain.
  - intros sealed open hasOpen. apply report_level_indicator.
Qed.

Lemma classifyGap_boundaries_witness :
  gtb (decimal1 1000) (decimal1 500) = true /\
  classifyGap (decimal1 1000) = ("critical", "🔴").
Proof.
  split.
  - vm_compute; reflexivity.
  - apply (proj1 (proj2 (proj2 (proj2 (proj2 (proj2 (proj2
             classifyGap_boundaries))))))).
    vm_compute; reflexivity.
Defined.

(** ** The fields of a built report *)

Section ReportFields.

Variables (sealed open : list TestResult.t) (hasOpen : bool).

Lemma buildReport_score :
  GapScore (Report.Report (buildReport sealed open hasOpen))
  = if 0 <? len sealed
    then round1 (mul (div (of_int (len (List.filter is_failed sealed)))
                          (of_int (len sealed)))
                     (of_int 100))
    else zero.
Proof.
  unfold buildReport. rewrite collect_failures_filter.
  destruct hasOpen; reflexivity.
Qed.

Lemma buildReport_level :
  Level (Report.Report (buildReport sealed open hasOpen))
  = fst (classifyGap
           (GapScore (Report.Report (buildReport sealed open hasOpen)))).
Proof. destruct hasOpen; reflexivity. Qed.

Lemma buildReport_failures :
  Report.Failures (buildReport sealed open hasOpen)
  = map to_failure (List.filter is_failed sealed).
Proof.
  unfold buildReport.
  rewrite project_failures_map, collect_failures_filter.
  destruct hasOpen; reflexivity.
Qed.

Lemma buildReport_sealed_tests :
  Report.SealedTests (buildReport sealed open hasOpen)
  = {| Total := len sealed;
       Passed := len sealed - len (List.filter is_failed sealed);
       Failed := len (List.filter is_failed sealed) |}.
Proof.
  unfold buildReport. rewrite collect_failures_filter.
  destruct hasOpen; reflexivity.
Qed.

Lemma buildReport_open_tests :
  Report.OpenTests (buildReport sealed open hasOpen)
  = if hasOpen
    then Some {| Total := len open;
                 Passed := len open - len (List.filter is_failed open);
                 Failed := len (List.filter is_failed open) |}
    else None.
Proof.
  unfold buildReport. destruct hasOpen; [|reflexivity].
  cbn [Report.OpenTests]. now rewrite count_failed_filter.
Qed.

Lemma buildReport_coverage :
  Report.CoverageComparison (buildReport sealed open hasOpen)
  = if hasOpen then Some (build_comparison sealed open) else None.
Proof. unfold buildReport. destruct hasOpen; reflexivity. Qed.

End ReportFields.

(** C4: a sealed result set with no entry has score exactly 0.0 and level
    perfect, whatever the open suite; the report is built as for any other
    input and lists no failure, and the shell validator also reports
    perfect and exits 0 on a total of zero. *)
Theorem empty_sealed_is_perfect :
  forall (open : list TestResult.t) (hasOpen : bool),
    let report := buildReport [] open hasOpen in
    GapScore (Report.Report report) = zero /\
    zero = decimal1 0 /\
    Level (Report.Report report) = "perfect" /\
    Report.SealedTests report = {| Total := 0; Passed := 0; Failed := 0 |} /\
    Report.Failures report = [] /\
    (forall hasThreshold, gate_code hasThreshold zero
                                    (GapScore (Report.Report report)) = 0) /\
    (forall failed rest,
        Sh.gap_score (Sh.Int 0 :: failed :: rest)
        = {| Sh.stdout := [Sh.NoSealed]; Sh.exit_code := 0 |}).
Proof.
  intros open hasOpen report. subst report.
  rewrite buildReport_level, buildReport_score, buildReport_failures,
    buildReport_sealed_tests.
  repeat apply conj; try reflexivity.
  intros []; reflexivity.
Qed.

(** C7: in every report the sealed total is the sum of the sealed passed and
    failed counts, and so is the open total when the open counts are there;
    no count is negative, and the open counts are there exactly when an open
    suite was supplied. *)
Theorem totals_are_passed_plus_failed :
  forall (sealed open : list TestResult.t) (hasOpen : bool),
    let report := buildReport sealed open hasOpen in
    let s := Report.SealedTests report in
    Total s = Passed s + Failed s /\
    0 <= Passed s /\ 0 <= Failed s /\
    Total s = len sealed /\
    match Report.OpenTests report with
    | Some o =>
        hasOpen = true /\
        Total o = Passed o + Failed o /\
        0 <= Passed o /\ 0 <= Failed o /\
        Total o = len open
    | None => hasOpen = false
    end.
Proof.
  intros sealed open hasOpen report s. subst s report.
  rewrite buildReport_sealed_tests, buildReport_open_tests.
  pose proof (filter_length_le is_failed sealed).
  pose proof (filter_length_le is_failed open).
  cbn [Total Passed Failed].
  destruct hasOpen; cbn [Total Passed Failed]; repeat apply conj;
    try reflexivity; lia.
Qed.

(** ** Coverage comparison *)

Section Coverage.

Variables sealed open : list TestResult.t.


Lemma build_comparison_inserts :
  build_comparison sealed open
  = <["security" := coverage_entry sealed open "security"]>
      (<["error_handling" := coverage_entry sealed open "error_handling"]>
         (<["edge_case" := coverage_entry sealed open "edge_case"]>
            (<["happy_path" := coverage_entry sealed open "happy_path"]> ∅))).
Proof.
  unfold build_comparison, categories, coverage_entry, in_category.
  cbn [fold_left]. now rewrite !count_category_filter.
Qed.

Lemma build_comparison_lookup (cat : string) :
  build_comparison sealed open !! cat
  = if bool_decide (cat ∈ categories) then Some (coverage_entry sealed open cat)
    else None.
Proof.
  rewrite build_comparison_inserts, !lookup_insert, lookup_empty.
  unfold categories.
  destruct (decide ("security" = cat)) as [<-|N1]; [reflexivity|].
  destruct (decide ("error_handling" = cat)) as [<-|N2]; [reflexivity|].
  destruct (decide ("edge_case" = cat)) as [<-|N3]; [reflexivity|].
  destruct (decide ("happy_path" = cat)) as [<-|N4]; [reflexivity|].
  rewrite bool_decide_eq_false_2; [reflexivity|].
  rewrite !elem_of_cons, elem_of_nil.
  intros [E|[E|[E|[E|[]]]]]; congruence.
Qed.

Lemma build_comparison_dom :
  dom (build_comparison sealed open) = list_to_set categories.
Proof.
  rewrite build_comparison_inserts, !dom_insert_L, dom_empty_L.
  unfold categories. cbn [list_to_set]. set_solver.
Qed.

Lemma build_comparison_size : size (build_comparison sealed open) = 4%nat.
Proof.
  rewrite build_comparison_inserts.
  rewrite !map_size_insert_None, map_size_empty; [reflexivity|..];
    rewrite ?lookup_insert, ?lookup_empty; repeat case_decide;
    try reflexivity; discriminate.
Qed.

Lemma build_comparison_nonempty : build_comparison sealed open <> ∅.
Proof.
  intros E. pose proof build_comparison_size as S.
  rewrite E, map_size_empty in S. discriminate.
Qed.

End Coverage.

(** C5: the coverage map is in the report, and its key in the JSON output,
    exactly when an open suite was supplied.  When it is there it has the
    four fixed categories as its keys and no other, each with the number of
    sealed tests of that category, the number of open tests, and their
    difference sealed minus open, also when the numbers are zero; tests of
    any other category enter no entry.  Without an open suite the map is nil
    and its key is left out. *)
Theorem coverage_iff_open :
  forall (sealed open : list TestResult.t) (hasOpen : bool),
    let report := buildReport sealed open hasOpen in
    coverage_emitted report = hasOpen /\
    match Report.CoverageComparison report with
    | None => hasOpen = false
    | Some comparison =>
        hasOpen = true /\
        dom comparison
        = {[ "happy_path"; "edge_case"; "error_handling"; "security" ]} /\
        size comparison = 4%nat /\
        forall cat : string,
          comparison !! cat
          = if bool_decide (cat ∈ ["happy_path"; "edge_case";
                                   "error_handling"; "security"])
            then Some {| Sealed := in_category cat sealed;
                         Open := in_category cat open;
                         Delta := in_category cat sealed - in_category cat open |}
            else None
    end.
Proof.
  intros sealed open hasOpen report. subst report.
  unfold coverage_emitted. rewrite buildReport_coverage.
  destruct hasOpen; [|split; reflexivity].
  split; [|split; [reflexivity|split; [|split]]].
  - rewrite bool_decide_eq_false_2; [reflexivity|].
    apply build_comparison_nonempty.
  - rewrite build_comparison_dom. unfold categories. cbn [list_to_set].
    set_solver.
  - apply build_comparison_size.
  - intros cat. apply build_comparison_lookup.
Qed.

(** ** Failures and status counting *)

Section Failures.

Lemma filter_map_sublist {A B : Type} (f : A -> B) (p : A -> bool) (l : list A) :
  sublist (map f (List.filter p l)) (map f l).
Proof.
  induction l as [|x l IH]; simpl.
  - constructor.
  - destruct (p x); simpl; now constructor.
Qed.

Lemma filter_app_middle {A : Type} (p : A -> bool) (l1 l2 : list A) (x : A) :
  p x = false -> List.filter p (l1 ++ x :: l2) = List.filter p (l1 ++ l2).
Proof.
  intros H. rewrite !List.filter_app. simpl. now rewrite H.
Qed.

Lemma is_failed_false (t : TestResult.t) :
  TestResult.Status t <> "failed" -> is_failed t = false.
Proof. intros H. unfold is_failed. now apply bool_decide_eq_false_2. Qed.

Lemma len_app_middle {A : Type} (l1 l2 : list A) (x : A) :
  len (l1 ++ x :: l2) = len (l1 ++ l2) + 1.
Proof. unfold len. rewrite !length_app. simpl. lia. Qed.

End Failures.

(** C6: the failures of a report are the failed tests of the sealed result
    set, one entry each, in their order in that set, none dropped and none
    merged; the open suite has no part in them; an entry copies the name,
    the expected and actual values and the message of its test, and its
    category, which is the word unknown when the test has none. *)
Theorem failures_from_sealed_in_order :
  forall (sealed open : list TestResult.t) (hasOpen : bool),
    let report := buildReport sealed open hasOpen in
    Report.Failures report
    = map to_failure
          (List.filter (fun t => bool_decide (TestResult.Status t = "failed"))
                       sealed) /\
    Report.Failures report = Report.Failures (buildReport sealed [] false) /\
    len (Report.Failures report) = Failed (Report.SealedTests report) /\
    sublist (map Failure.TestName (Report.Failures report))
            (map TestResult.Name sealed) /\
    (forall n s c e a m,
        to_failure {| TestResult.Name := n; TestResult.Status := s;
                      TestResult.Category := c; TestResult.Expected := e;
                      TestResult.Actual := a; TestResult.Message := m |}
        = {| Failure.TestName := n;
             Failure.Category := if bool_decide (c = EmptyString) then "unknown" else c;
             Failure.Expected := e; Failure.Actual := a;
             Failure.Message := m |}) /\
    (forall n s e a m,
        to_failure {| TestResult.Name := n; TestResult.Status := s;
                      TestResult.Category := EmptyString; TestResult.Expected := e;
                      TestResult.Actual := a; TestResult.Message := m |}
        = {| Failure.TestName := n; Failure.Category := "unknown";
             Failure.Expected := e; Failure.Actual := a;
             Failure.Message := m |}).
Proof.
  intros sealed open hasOpen report. subst report.
  rewrite !buildReport_failures, buildReport_sealed_tests.
  cbn [Failed]. fold is_failed.
  split; [reflexivity|]. split; [reflexivity|].
  split; [unfold len; now rewrite length_map|].
  split; [|split; reflexivity].
  rewrite map_map.
  change (fun x => Failure.TestName (to_failure x)) with TestResult.Name.
  apply filter_map_sublist.
Qed.

(** C9: in the sealed and in the open counts, the failed count is the
    number of entries whose status is exactly the string failed and the
    passed count is the number of all other entries, whatever their status
    says; an entry with another status adds one to the passed count of its
    suite and nothing to the failed count or to the failures; no status is
    rejected. *)
Theorem only_failed_status_counts :
  forall (sealed open : list TestResult.t) (hasOpen : bool),
    let failed t := bool_decide (TestResult.Status t = "failed") in
    let other t := negb (bool_decide (TestResult.Status t = "failed")) in
    let report := buildReport sealed open hasOpen in
    Failed (Report.SealedTests report) = len (List.filter failed sealed) /\
    Passed (Report.SealedTests report) = len (List.filter other sealed) /\
    match Report.OpenTests report with
    | Some o =>
        Failed o = len (List.filter failed open) /\
        Passed o = len (List.filter other open)
    | None => hasOpen = false
    end /\
    forall (before after : list TestResult.t) (t : TestResult.t),
      TestResult.Status t <> "failed" ->
      let report' := buildReport (before ++ t :: after) open hasOpen in
      let report0 := buildReport (before ++ after) open hasOpen in
      Report.Failures report' = Report.Failures report0 /\
      Failed (Report.SealedTests report') = Failed (Report.SealedTests report0) /\
      Passed (Report.SealedTests report')
      = Passed (Report.SealedTests report0) + 1.
Proof.
  intros sealed open hasOpen failed other report.
  subst report. fold is_failed in failed, other. subst failed other.
  rewrite buildReport_sealed_tests, buildReport_open_tests.
  cbn [Failed Passed].
  pose proof (filter_length_split is_failed sealed) as Hs.
  pose proof (filter_length_split is_failed open) as Ho.
  unfold is_failed in Hs, Ho |- *.
  split; [reflexivity|]. split; [lia|]. split.
  - destruct hasOpen; [|reflexivity]. cbn [Failed Passed]. split; [reflexivity|lia].
  - intros before after t Ht.
    rewrite !buildReport_failures, !buildReport_sealed_tests.
    cbn [Failed Passed].
    rewrite (filter_app_middle is_failed before after t (is_failed_false t Ht)).
    rewrite len_app_middle.
    split; [reflexivity|]. split; [reflexivity|lia].
Qed.

Lemma only_failed_status_counts_witness :
  TestResult.Status (skipped "s") <> "failed" /\
  Report.Failures
    (buildReport ([failing "a"] ++ skipped "s" :: [passing "b"]) [] false)
  = Report.Failures (buildReport ([failing "a"] ++ [passing "b"]) [] false) /\
  Passed (Report.SealedTests
            (buildReport ([failing "a"] ++ skipped "s" :: [passing "b"])
                         [] false))
  = Passed (Report.SealedTests
              (buildReport ([failing "a"] ++ [passing "b"]) [] false)) + 1.
Proof.
  assert (H : TestResult.Status (skipped "s") <> "failed") by discriminate.
  split; [exact H|].
  pose proof (proj2 (proj2 (proj2
    (only_failed_status_counts [] [] false)))
    [failing "a"] [passing "b"] (skipped "s") H) as (E1 & _ & E3).
  split; [exact E1|exact E3].
Defined.

(** ** The exit code of main *)

Section MainRuns.

Variable ReadFile : string -> option string.
Variable Unmarshal : string -> option inputFile.
Variable MarshalIndent : Report.t -> option string.


Lemma render_prints (format : string) (report : Report.t) :
  prints MarshalIndent format report ->
  is_Some (render MarshalIndent format report).
Proof.
  unfold prints, render. intros [->|[out E]].
  - rewrite bool_decide_eq_true_2 by reflexivity. eauto.
  - rewrite E. destruct (bool_decide _); eauto.
Qed.

Lemma main_exit_code (sealedPath openPath format : string)
      (hasThreshold : bool) (thresholdVal : float64)
      (sealed open : list TestResult.t) (hasOpen : bool) :
  loads ReadFile Unmarshal sealedPath openPath sealed open hasOpen ->
  prints MarshalIndent format (buildReport sealed open hasOpen) ->
  exit_code (main ReadFile Unmarshal MarshalIndent sealedPath openPath format
                  hasThreshold thresholdVal)
  = gate_code hasThreshold thresholdVal
              (GapScore (Report.Report (buildReport sealed open hasOpen))).
Proof.
  intros (Hs & Hl & Hh & Ho) Hp. unfold main.
  rewrite bool_decide_eq_false_2 by exact Hs.
  rewrite Hl. rewrite <- Hh. rewrite Ho.
  destruct (render_prints _ _ Hp) as [out E]. rewrite E. reflexivity.
Qed.

(** A file without a tests collection is read as zero tests. *)
Lemma loadResults_nil_tests (path data : string) :
  ReadFile path = Some data ->
  Unmarshal data = Some {| Tests := None |} ->
  loadResults ReadFile Unmarshal path = Some [].
Proof. intros Hr Hu. unfold loadResults. now rewrite Hr, Hu. Qed.

(** A run that fails to read its input or to marshal its report stops
    with code 2 and prints nothing. *)
Lemma main_exit_not_2 (sealedPath openPath format : string)
      (hasThreshold : bool) (thresholdVal : float64) :
  let run := main ReadFile Unmarshal MarshalIndent sealedPath openPath format
                  hasThreshold thresholdVal in
  exit_code run = 2 /\ stdout run = [] \/
  exists sealed open hasOpen,
    loads ReadFile Unmarshal sealedPath openPath sealed open hasOpen /\
    prints MarshalIndent format (buildReport sealed open hasOpen).
Proof.
  unfold main. case_bool_decide as Hs; [left; split; reflexivity|].
  destruct (loadResults ReadFile Unmarshal sealedPath) as [sealed|] eqn:Hl;
    [|left; split; reflexivity].
  set (hasOpen := negb (bool_decide (openPath = EmptyString))).
  destruct (if hasOpen then loadResults ReadFile Unmarshal openPath
            else Some []) as [open|] eqn:Ho;
    [|left; split; reflexivity].
  destruct (render MarshalIndent format (buildReport sealed open hasOpen))
    as [out|] eqn:Hr; [|left; split; reflexivity].
  right. exists sealed, open, hasOpen. split.
  - repeat split; assumption.
  - unfold prints. unfold render in Hr.
    case_bool_decide; [now left|right].
    destruct (MarshalIndent _); [eauto|discriminate].
Qed.

End MainRuns.

(** ** The threshold gate *)

Section Gate.

Lemma gate_code_equal (t : float64) : gate_code true t t = 0.
Proof. unfold gate_code. now rewrite gtb_irrefl. Qed.

Lemma gate_code_absent (t score : float64) : gate_code false t score = 0.
Proof. reflexivity. Qed.

Lemma gate_code_le (hasThreshold : bool) (t score : float64) :
  leb score t = true -> gate_code hasThreshold t score = 0.
Proof.
  intros H. unfold gate_code. rewrite (leb_not_gtb _ _ H).
  now rewrite andb_false_r.
Qed.


Lemma all_below_spec (n : nat) (p : Z -> bool) :
  all_below n p = true -> forall k, 0 <= k < Z.of_nat n -> p k = true.
Proof.
  induction n as [|n IH]; intros H k Hk.
  - lia.
  - cbn [all_below] in H. apply andb_true_iff in H as [Hn Hrest].
    destruct (Z.eq_dec k (Z.of_nat n)) as [->|Hne]; [exact Hn|].
    apply IH; [exact Hrest|lia].
Qed.

(** The one-decimal scores [0.0 .. 99.9], each against its successor. *)
Lemma tenth_steps_hold :
  all_below (Z.to_nat 1000)
            (fun k => gtb (decimal1 (k + 1)) (decimal1 k)) = true.
Proof. vm_compute. reflexivity. Qed.

Lemma next_tenth_above (k : Z) :
  0 <= k < 1000 -> gtb (decimal1 (k + 1)) (decimal1 k) = true.
Proof.
  intros Hk.
  apply (all_below_spec _ (fun k => gtb (decimal1 (k + 1)) (decimal1 k))
                        tenth_steps_hold).
  rewrite Z2Nat.id; lia.
Qed.

End Gate.


Lemma sample_loads (tests : list TestResult.t) :
  loads sample_ReadFile (sample_Unmarshal tests) "sealed.json" EmptyString
        tests [] false.
Proof. repeat split. discriminate. Defined.

Lemma sample_prints (format : string) (report : Report.t) :
  prints sample_MarshalIndent format report.
Proof. right. exists "{}". reflexivity. Defined.

(** ** The shell validator's gate *)

Section ShellGate.

Lemma wrap64_0 : Sh.wrap64 0 = 0.
Proof. reflexivity. Qed.

Lemma wrap64_nonzero (z : Z) : Sh.wrap64 z <> 0 -> z <> 0.
Proof. intros H ->. now apply H. Qed.

(** With integer parameters and a total that does not read as 0 the
    script compares its tenths with ten times the threshold. *)
Lemma sh_exit_with_threshold (total failed t : Z) :
  Sh.wrap64 total <> 0 ->
  Sh.exit_code (Sh.gap_score [Sh.Int total; Sh.Int failed; Sh.Int t])
  = if Sh.wrap64 (Sh.wrap64 t * 10) <? Sh.GAP_SCORE_X10 total failed
    then 1 else 0.
Proof.
  intros H. pose proof (wrap64_nonzero _ H) as H0.
  unfold Sh.gap_score. cbn [head Sh.test_eq_zero].
  destruct (Z.eqb_spec total 0) as [E|_]; [contradiction|].
  destruct (Z.eqb_spec (Sh.wrap64 total) 0) as [E|_]; [contradiction|].
  destruct (Sh.classify _) as [level ind].
  destruct (_ <? _); reflexivity.
Qed.

Lemma sh_reported_score (total failed : Z) (rest : list Sh.Arg) :
  Sh.wrap64 total <> 0 ->
  reported_x10 (Sh.gap_score (Sh.Int total :: Sh.Int failed :: rest))
  = Some (Sh.GAP_SCORE_X10 total failed).
Proof.
  intros H. pose proof (wrap64_nonzero _ H) as H0.
  unfold Sh.gap_score, reported_x10. cbn [Sh.test_eq_zero].
  destruct (Z.eqb_spec total 0) as [E|_]; [contradiction|].
  destruct (Z.eqb_spec (Sh.wrap64 total) 0) as [E|_]; [contradiction|].
  destruct (Sh.classify _) as [level ind].
  assert (E : 10 * (Sh.GAP_SCORE_X10 total failed ÷ 10)
              + Z.rem (Sh.GAP_SCORE_X10 total failed) 10
              = Sh.GAP_SCORE_X10 total failed)
    by (symmetry; apply Z.quot_rem'; lia).
  destruct (head rest) as [[t|text]|]; [destruct (_ <? _)| |];
    cbn [Sh.stdout Sh.stopped app]; now rewrite E.
Qed.

End ShellGate.

(** C3 is right and the Go validator keeps it, but the shell validator
    does not.  The Go part: a run that reads its input and prints its
    report exits with code 1 if a threshold was supplied and the score is
    strictly greater than it, and with code 0 otherwise; a score equal to
    the threshold exits 0, a score one tenth above it exits 1, and the
    decision is the same under every output format.  The shell part, at two
    inputs: with a sealed total of zero and the threshold -1 the script
    prints the score 0, which is above the threshold, and exits 0 where the
    Go gate gives 1; with 2 failures out of 18 and the threshold 11.1 the
    script prints the score 11.1, equal to the threshold, and stops with
    status 1 where the Go gate gives 0. *)
Theorem threshold_gate_exit :
  forall (ReadFile : string -> option string)
         (Unmarshal : string -> option inputFile)
         (MarshalIndent : Report.t -> option string)
         (sealedPath openPath format : string)
         (hasThreshold : bool) (thresholdVal : float64)
         (sealed open : list TestResult.t) (hasOpen : bool),
    loads ReadFile Unmarshal sealedPath openPath sealed open hasOpen ->
    prints MarshalIndent format (buildReport sealed open hasOpen) ->
    let score := GapScore (Report.Report (buildReport sealed open hasOpen)) in
    let run fmt := main ReadFile Unmarshal MarshalIndent sealedPath openPath
                        fmt hasThreshold thresholdVal in
    (hasThreshold = true /\ gtb score thresholdVal = true ->
     exit_code (run format) = 1) /\
    (hasThreshold = false \/ gtb score thresholdVal = false ->
     exit_code (run format) = 0) /\
    (score = thresholdVal -> exit_code (run format) = 0) /\
    (forall k, 0 <= k < 1000 -> hasThreshold = true ->
               thresholdVal = decimal1 k -> score = decimal1 (k + 1) ->
               exit_code (run format) = 1) /\
    exit_code (run format) = exit_code (run "summary") /\
    (let sh := Sh.gap_score [Sh.Int 0; Sh.Int 0; Sh.Int (-1)] in
     Sh.stdout sh = [Sh.NoSealed] /\
     reported_x10 sh = Some 0 /\
     Sh.exit_code sh = 0 /\
     gate_code true (of_int (-1))
               (GapScore (Report.Report (buildReport [] [] false))) = 1) /\
    (let sh := Sh.gap_score [Sh.Int 18; Sh.Int 2; Sh.Decimal "11.1"] in
     Sh.stdout sh = [Sh.GapScore 11 1 "🟢" "minor";
                     Sh.Sealed 16 (Sh.Int 18) (Sh.Int 2)] /\
     Sh.exit_code sh = 1 /\
     gate_code true (decimal1 111)
               (GapScore (Report.Report (buildReport (suite 2 16) [] false)))
     = 0).
Proof.
  intros ReadFile Unmarshal MarshalIndent sealedPath openPath format
         hasThreshold thresholdVal sealed open hasOpen Hl Hp score run.
  assert (E : forall fmt,
             prints MarshalIndent fmt (buildReport sealed open hasOpen) ->
             exit_code (run fmt) = gate_code hasThreshold thresholdVal score)
    by (intros fmt Hf; apply main_exit_code; assumption).
  rewrite (E format Hp), (E "summary" (or_introl eq_refl)).
  unfold gate_code.
  split; [intros [-> ->]; reflexivity|].
  split; [intros [->| ->]; [reflexivity|now rewrite andb_false_r]|].
  split; [intros ->; now rewrite gtb_irrefl, andb_false_r|].
  split; [intros k Hk -> -> ->; now rewrite next_tenth_above|].
  split; [reflexivity|].
  split; cbv zeta; repeat apply conj; vm_compute; reflexivity.
Qed.

(** The worked example of the specification: 9 failures out of 15 against
    a threshold of 50 exit with code 1. *)
Lemma threshold_gate_exit_witness :
  exit_code (main sample_ReadFile (sample_Unmarshal (suite 9 6))
                  sample_MarshalIndent "sealed.json" EmptyString "json"
                  true (decimal1 500)) = 1.
Proof.
  refine (proj1 (threshold_gate_exit
                   sample_ReadFile (sample_Unmarshal (suite 9 6))
                   sample_MarshalIndent
                   "sealed.json" EmptyString "json" true (decimal1 500)
                   (suite 9 6) [] false
                   (sample_loads (suite 9 6))
                   (sample_prints "json" (buildReport (suite 9 6) [] false)))
                _).
  split; [reflexivity|vm_compute; reflexivity].
Defined.

(** ** Rounding before the gate *)


(** [11.1] is the binary64 value nearest to the decimal 11.1: it lies
    within half a unit in the last place of 111/10. *)
Lemma decimal1_111_nearest :
  decimal1 111 = S754_finite false 6248744482976563 (-49) /\
  2 * Z.abs (10 * 6248744482976563 - 111 * 2 ^ 49) <= 10.
Proof. split; [vm_compute; reflexivity|vm_compute; discriminate]. Qed.

(** C10: the gate compares the score already rounded to one decimal with
    the threshold, not the unrounded ratio: the run exits with code 1
    exactly when a threshold was supplied and the rounded score is strictly
    greater than it, and with code 0 whenever the rounded score is less
    than or equal to the threshold, even though the unrounded ratio may
    exceed the threshold, as it does for 2 failures out of 18 against a
    threshold of 11.1; in the other direction, 1 failure out of 6 against a
    threshold of 16.68 exits with code 1, because the rounded score 16.7 is
    above the threshold although the unrounded ratio is not. *)
Theorem gate_compares_rounded_score :
  forall (ReadFile : string -> option string)
         (Unmarshal : string -> option inputFile)
         (MarshalIndent : Report.t -> option string)
         (sealedPath openPath format : string)
         (hasThreshold : bool) (thresholdVal : float64)
         (sealed open : list TestResult.t) (hasOpen : bool),
    loads ReadFile Unmarshal sealedPath openPath sealed open hasOpen ->
    prints MarshalIndent format (buildReport sealed open hasOpen) ->
    let report := buildReport sealed open hasOpen in
    let score := GapScore (Report.Report report) in
    let run := main ReadFile Unmarshal MarshalIndent sealedPath openPath
                    format hasThreshold thresholdVal in
    (0 < len sealed ->
     score = round1 (raw_ratio (Failed (Report.SealedTests report))
                               (Total (Report.SealedTests report)))) /\
    exit_code run = gate_code hasThreshold thresholdVal score /\
    (leb score thresholdVal = true -> exit_code run = 0) /\
    (let r := buildReport (suite 2 16) [] false in
     Report.SealedTests r = {| Total := 18; Passed := 16; Failed := 2 |} /\
     GapScore (Report.Report r) = decimal1 111 /\
     leb (GapScore (Report.Report r)) (decimal1 111) = true /\
     gtb (raw_ratio 2 18) (decimal1 111) = true /\
     111 * 18 < 1000 * 2) /\
    (exit_code run = 1 <->
     hasThreshold = true /\ gtb score thresholdVal = true) /\
    (exit_code run = 0 <->
     hasThreshold = false \/ gtb score thresholdVal = false) /\
    (0 < len sealed ->
     (exit_code run = 1 <->
      hasThreshold = true /\
      gtb (round1 (raw_ratio (len (List.filter is_failed sealed)) (len sealed)))
          thresholdVal = true)) /\
    (let go tests t :=
       exit_code (main sample_ReadFile (sample_Unmarshal tests)
                       sample_MarshalIndent "sealed.json" EmptyString "json"
                       true t) in
     let t1668 := div (of_int 1668) (of_int 100) in
     go (suite 2 16) (decimal1 111) = 0 /\
     gtb (raw_ratio 2 18) (decimal1 111) = true /\
     go (suite 2 16) (decimal1 110) = 1 /\
     go (suite 1 5) t1668 = 1 /\
     gtb (raw_ratio 1 6) t1668 = false /\
     gtb (round1 (raw_ratio 1 6)) t1668 = true).
Proof.
  intros ReadFile Unmarshal MarshalIndent sealedPath openPath format
         hasThreshold thresholdVal sealed open hasOpen Hl Hp report score run.
  subst run score report.
  rewrite (main_exit_code _ _ _ _ _ _ _ _ _ _ _ Hl Hp).
  assert (S : 0 < len sealed ->
              GapScore (Report.Report (buildReport sealed open hasOpen))
              = round1 (raw_ratio (len (List.filter is_failed sealed))
                                  (len sealed))).
  { intros Hpos. rewrite buildReport_score.
    apply Z.ltb_lt in Hpos. now rewrite Hpos. }
  assert (G1 : forall t s,
             gate_code hasThreshold t s = 1 <->
             hasThreshold = true /\ gtb s t = true).
  { intros t s. unfold gate_code.
    destruct hasThreshold, (gtb s t); cbn [andb]; split;
      try (intros [? ?]); try discriminate; auto. }
  assert (G0 : forall t s,
             gate_code hasThreshold t s = 0 <->
             hasThreshold = false \/ gtb s t = false).
  { intros t s. unfold gate_code.
    destruct hasThreshold, (gtb s t); cbn [andb]; split;
      try (intros [?|?]); try discriminate; auto. }
  split; [|split; [reflexivity|split; [|split; [|split; [|split; [|split]]]]]].
  - intros Hpos. rewrite buildReport_sealed_tests. cbn [Failed Total].
    now apply S.
  - apply gate_code_le.
  - cbv zeta. repeat apply conj; try (vm_compute; reflexivity).
  - apply G1.
  - apply G0.
  - intros Hpos. rewrite <- (S Hpos). apply G1.
  - cbv zeta. repeat apply conj; vm_compute; reflexivity.
Qed.

Lemma gate_compares_rounded_score_witness :
  leb (GapScore (Report.Report (buildReport (suite 2 16) [] false)))
      (decimal1 111) = true /\
  gtb (raw_ratio 2 18) (decimal1 111) = true /\
  exit_code (main sample_ReadFile (sample_Unmarshal (suite 2 16))
                  sample_MarshalIndent "sealed.json" EmptyString "json"
                  true (decimal1 111)) = 0.
Proof.
  split; [vm_compute; reflexivity|].
  split; [vm_compute; reflexivity|].
  refine (proj1 (proj2 (proj2 (gate_compares_rounded_score
                   sample_ReadFile (sample_Unmarshal (suite 2 16))
                   sample_MarshalIndent
                   "sealed.json" EmptyString "json" true (decimal1 111)
                   (suite 2 16) [] false
                   (sample_loads (suite 2 16))
                   (sample_prints "json" (buildReport (suite 2 16) [] false)))))
                _).
  vm_compute; reflexivity.
Defined.

(** ** The score against the specification's rounding rule *)

Section Rounding.

(** [spec_score_x10] is the rounding to the nearest tenth, halves up. *)
Lemma spec_score_x10_nearest (failed total k : Z) :
  0 < total ->
  spec_score_x10 failed total = k <->
  2 * total * k - total <= 2000 * failed < 2 * total * k + total.
Proof.
  intros Ht. unfold spec_score_x10. split.
  - intros <-.
    pose proof (Z.div_mod (2000 * failed + total) (2 * total) ltac:(lia)) as D.
    pose proof (Z.mod_pos_bound (2000 * failed + total) (2 * total)
                                ltac:(lia)) as B.
    lia.
  - intros H. symmetry.
    apply (Z.div_unique_pos _ _ _ (2000 * failed + total - 2 * total * k));
      lia.
Qed.

(** For a positive total below 2^53 and a failed count between 0 and the
    total the shell computes the floor of the ratio in tenths: the digits
    after the first decimal are cut. *)
Lemma shell_score_is_floor (total failed : Z) :
  0 < total < 2 ^ 53 -> 0 <= failed <= total ->
  Sh.GAP_SCORE_X10 total failed = 1000 * failed / total.
Proof.
  intros Ht Hf. unfold Sh.GAP_SCORE_X10.
  assert (W : forall z, - 2 ^ 63 <= z < 2 ^ 63 -> Sh.wrap64 z = z).
  { intros z Hz. unfold Sh.wrap64.
    rewrite Z.mod_small by lia. lia. }
  assert (2 ^ 53 * 1000 < 2 ^ 63) by (vm_compute; reflexivity).
  assert (2 ^ 53 < 2 ^ 63) by (vm_compute; reflexivity).
  rewrite (W total), (W failed) by lia.
  rewrite (W (failed * 1000)) by nia.
  rewrite Z.quot_div_nonneg by lia.
  assert (0 <= failed * 1000 / total <= failed * 1000).
  { split; [apply Z.div_pos; lia|].
    apply Z.div_le_upper_bound; nia. }
  rewrite W by nia. f_equal. lia.
Qed.

(** X22: for a positive total below 2^53 and a failed count between 0 and
    the total, the shell validator's score in tenths is the value of the
    specification's rounding rule (nearest tenth, halves up) or one tenth
    below it. *)
Lemma shell_score_below_spec (total failed : Z) :
  0 < total < 2 ^ 53 -> 0 <= failed <= total ->
  Sh.GAP_SCORE_X10 total failed <= spec_score_x10 failed total
  <= Sh.GAP_SCORE_X10 total failed + 1.
Proof.
  intros Ht Hf. rewrite shell_score_is_floor by assumption.
  set (k := spec_score_x10 failed total).
  pose proof (proj1 (spec_score_x10_nearest failed total k ltac:(lia))
                    eq_refl) as K.
  pose proof (Z.div_mod (1000 * failed) total ltac:(lia)) as D.
  pose proof (Z.mod_pos_bound (1000 * failed) total ltac:(lia)) as B.
  nia.
Qed.

Lemma same_float_eq (x y : float64) : same_float x y = true -> x = y.
Proof.
  destruct x as [a|a| |a m e], y as [b|b| |b n f]; simpl; try discriminate;
    try reflexivity.
  - intros H. apply Bool.eqb_prop in H. now subst.
  - intros H. apply Bool.eqb_prop in H. now subst.
  - intros H. apply andb_true_iff in H as [H He].
    apply andb_true_iff in H as [Hs Hm].
    apply Bool.eqb_prop in Hs. apply Pos.eqb_eq in Hm. apply Z.eqb_eq in He.
    now subst.
Qed.

Lemma go_scores_below_80 :
  all_below (Z.to_nat 80)
            (fun total =>
               all_below (Z.to_nat 80)
                         (fun failed =>
                            if (0 <? total) && (failed <=? total)
                            then go_score_exact total failed else true))
  = true.
Proof. vm_compute. reflexivity. Qed.

(** X23: up to 79 sealed tests the Go validator reports the exactly rounded
    score; 80 is the first total at which it does not. *)
Lemma go_score_exact_below_80 (sealed open : list TestResult.t) (hasOpen : bool) :
  0 < len sealed < 80 ->
  let report := buildReport sealed open hasOpen in
  GapScore (Report.Report report)
  = decimal1 (spec_score_x10 (Failed (Report.SealedTests report))
                             (Total (Report.SealedTests report))).
Proof.
  intros Ht report. subst report.
  rewrite buildReport_score, buildReport_sealed_tests. cbn [Failed Total].
  pose proof (filter_length_le is_failed sealed) as Hf.
  set (failed := len (List.filter is_failed sealed)) in *.
  set (total := len sealed) in *.
  replace (0 <? total) with true by (symmetry; apply Z.ltb_lt; lia).
  apply same_float_eq.
  pose proof (all_below_spec _ _ go_scores_below_80 total
                             ltac:(rewrite Z2Nat.id; lia)) as H1.
  cbv beta in H1.
  pose proof (all_below_spec _ _ H1 failed ltac:(rewrite Z2Nat.id; lia)) as H2.
  cbv beta in H2.
  replace (0 <? total) with true in H2 by (symmetry; apply Z.ltb_lt; lia).
  replace (failed <=? total) with true in H2 by (symmetry; apply Z.leb_le; lia).
  exact H2.
Qed.

End Rounding.

(** C1 fails on both validators.  For 23 failed tests out of 80 the ratio
    is 28.75 exactly and rounds to 28.8, but the product computed in
    binary64 falls just below 28.75 and the Go validator reports 28.7.  For
    2 failed tests out of 3 the ratio 66.66... rounds to 66.7, but the
    shell validator cuts it to 66.6. *)
Theorem score_not_exact_rounding :
  (let report := buildReport (suite 23 57) [] false in
   Report.SealedTests report = {| Total := 80; Passed := 57; Failed := 23 |} /\
   spec_score_x10 23 80 = 288 /\
   GapScore (Report.Report report) = decimal1 287 /\
   ltb (decimal1 287) (decimal1 288) = true) /\
  (spec_score_x10 2 3 = 667 /\
   Sh.GAP_SCORE_X10 3 2 = 666 /\
   Sh.gap_score [Sh.Int 3; Sh.Int 2]
   = {| Sh.stdout := [Sh.GapScore 66 6 "🔴" "critical";
                      Sh.Sealed 1 (Sh.Int 3) (Sh.Int 2)];
        Sh.exit_code := 0 |}).
Proof.
  split; cbv zeta; repeat apply conj; vm_compute; reflexivity.
Qed.


(** * Further properties of the validators *)

(** ** buildReport on its input lists *)

Section ReportAlgebra.

Lemma filter_Permutation_len {A : Type} (p : A -> bool) (l l' : list A) :
  Permutation l l' -> len (List.filter p l) = len (List.filter p l').
Proof.
  unfold len. intros H. induction H as [|x l l' H IH|x y l|l l' l'' H1 IH1 H2 IH2];
    simpl.
  - reflexivity.
  - destruct (p x); simpl; lia.
  - destruct (p x), (p y); reflexivity.
  - lia.
Qed.

Lemma filter_Permutation_list {A : Type} (p : A -> bool) (l l' : list A) :
  Permutation l l' -> Permutation (List.filter p l) (List.filter p l').
Proof.
  intros H. induction H as [|x l l' H IH|x y l|l l' l'' H1 IH1 H2 IH2]; simpl.
  - constructor.
  - destruct (p x); [now constructor|assumption].
  - destruct (p x), (p y); try reflexivity. constructor.
  - now transitivity (List.filter p l').
Qed.

Lemma len_app {A : Type} (l1 l2 : list A) : len (l1 ++ l2) = len l1 + len l2.
Proof. unfold len. rewrite length_app. lia. Qed.

Lemma build_comparison_Permutation (sealed sealed' open open' : list TestResult.t) :
  Permutation sealed sealed' -> Permutation open open' ->
  build_comparison sealed open = build_comparison sealed' open'.
Proof.
  intros Hs Ho. rewrite !build_comparison_inserts.
  unfold coverage_entry, in_category.
  now rewrite !(filter_Permutation_len _ _ _ Hs), !(filter_Permutation_len _ _ _ Ho).
Qed.

Lemma len_filter_cons {A : Type} (p : A -> bool) (x : A) (l : list A) :
  len (List.filter p (x :: l)) = (if p x then 1 else 0) + len (List.filter p l).
Proof. unfold len. simpl. destruct (p x); simpl; lia. Qed.

(** A test falls under at most one of the four categories. *)
Lemma one_category (c : string) :
  (if bool_decide (c = "happy_path") then 1 else 0)
  + (if bool_decide (c = "edge_case") then 1 else 0)
  + (if bool_decide (c = "error_handling") then 1 else 0)
  + (if bool_decide (c = "security") then 1 else 0)
  = if bool_decide (c ∈ categories) then 1 else 0.
Proof.
  unfold categories.
  destruct (decide (c = "happy_path")) as [->|N1]; [reflexivity|].
  destruct (decide (c = "edge_case")) as [->|N2]; [reflexivity|].
  destruct (decide (c = "error_handling")) as [->|N3]; [reflexivity|].
  destruct (decide (c = "security")) as [->|N4]; [reflexivity|].
  rewrite !bool_decide_eq_false_2 by assumption.
  rewrite bool_decide_eq_false_2; [reflexivity|].
  rewrite !elem_of_cons, elem_of_nil. intros [?|[?|[?|[?|[]]]]]; contradiction.
Qed.

Lemma category_counts_sum (tests : list TestResult.t) :
  in_category "happy_path" tests + in_category "edge_case" tests
  + in_category "error_handling" tests + in_category "security" tests
  = len (List.filter recognized tests).
Proof.
  unfold in_category. induction tests as [|t l IH]; [reflexivity|].
  rewrite !len_filter_cons. unfold recognized at 1.
  pose proof (one_category (TestResult.Category t)) as H. lia.
Qed.

End ReportAlgebra.

(** X1: the open suite has no influence on the score, the level, the sealed
    totals or the failures of a report, and so none on the exit code. *)
Theorem sealed_part_ignores_open :
  forall (sealed open open' : list TestResult.t) (hasOpen hasOpen' : bool),
    let r := buildReport sealed open hasOpen in
    let r' := buildReport sealed open' hasOpen' in
    Report.Report r = Report.Report r' /\
    Report.SealedTests r = Report.SealedTests r' /\
    Report.Failures r = Report.Failures r' /\
    forall hasThreshold thresholdVal,
      gate_code hasThreshold thresholdVal (GapScore (Report.Report r))
      = gate_code hasThreshold thresholdVal (GapScore (Report.Report r')).
Proof.
  intros sealed open open' hasOpen hasOpen' r r'. subst r r'.
  assert (E : Report.Report (buildReport sealed open hasOpen)
              = Report.Report (buildReport sealed open' hasOpen'))
    by (destruct hasOpen, hasOpen'; reflexivity).
  rewrite E, !buildReport_sealed_tests, !buildReport_failures.
  repeat split.
Qed.

(** X2: the order of the tests in the input files does not matter to the
    numbers of a report: permuting the sealed and the open result sets
    leaves the score, the level, all totals and the coverage comparison
    unchanged, and permutes the failures. *)
Theorem report_order_invariant :
  forall (sealed sealed' open open' : list TestResult.t) (hasOpen : bool),
    Permutation sealed sealed' ->
    Permutation open open' ->
    let r := buildReport sealed open hasOpen in
    let r' := buildReport sealed' open' hasOpen in
    Report.Report r = Report.Report r' /\
    Report.SealedTests r = Report.SealedTests r' /\
    Report.OpenTests r = Report.OpenTests r' /\
    Report.CoverageComparison r = Report.CoverageComparison r' /\
    Permutation (Report.Failures r) (Report.Failures r').
Proof.
  intros sealed sealed' open open' hasOpen Hs Ho r r'. subst r r'.
  assert (Ls : len sealed = len sealed')
    by (unfold len; now rewrite (Permutation_length Hs)).
  assert (Lo : len open = len open')
    by (unfold len; now rewrite (Permutation_length Ho)).
  pose proof (filter_Permutation_len is_failed _ _ Hs) as Fs.
  pose proof (filter_Permutation_len is_failed _ _ Ho) as Fo.
  assert (E : GapScore (Report.Report (buildReport sealed open hasOpen))
              = GapScore (Report.Report (buildReport sealed' open' hasOpen)))
    by (rewrite !buildReport_score; now rewrite Ls, Fs).
  split.
  - pose proof (buildReport_level sealed open hasOpen) as L1.
    pose proof (buildReport_level sealed' open' hasOpen) as L2.
    destruct (Report.Report (buildReport sealed open hasOpen)) as [s1 l1].
    destruct (Report.Report (buildReport sealed' open' hasOpen)) as [s2 l2].
    cbn [GapScore Level] in *. congruence.
  - rewrite !buildReport_sealed_tests, !buildReport_open_tests,
      !buildReport_coverage, !buildReport_failures.
    rewrite Ls, Lo, Fs, Fo.
    rewrite (build_comparison_Permutation _ _ _ _ Hs Ho).
    repeat split.
    apply Permutation_map. now apply filter_Permutation_list.
Qed.

Lemma report_order_invariant_witness :
  Report.Report (buildReport [failing "a"; passing "b"] [] false)
  = Report.Report (buildReport [passing "b"; failing "a"] [] false).
Proof.
  exact (proj1 (report_order_invariant
                  [failing "a"; passing "b"] [passing "b"; failing "a"]
                  [] [] false
                  (perm_swap (passing "b") (failing "a") [])
                  (perm_nil TestResult.t))).
Defined.

(** X3: a report of two result sets put one after the other has the
    failures of the first followed by the failures of the second, and its
    sealed total, passed and failed counts are the sums of theirs; nothing
    is merged, so a result set listed twice has every failure twice. *)
Theorem report_of_concatenation :
  forall (s1 s2 open : list TestResult.t) (hasOpen : bool),
    let r := buildReport (s1 ++ s2) open hasOpen in
    let r1 := buildReport s1 open hasOpen in
    let r2 := buildReport s2 open hasOpen in
    Report.Failures r = Report.Failures r1 ++ Report.Failures r2 /\
    Total (Report.SealedTests r)
    = Total (Report.SealedTests r1) + Total (Report.SealedTests r2) /\
    Passed (Report.SealedTests r)
    = Passed (Report.SealedTests r1) + Passed (Report.SealedTests r2) /\
    Failed (Report.SealedTests r)
    = Failed (Report.SealedTests r1) + Failed (Report.SealedTests r2).
Proof.
  intros s1 s2 open hasOpen r r1 r2. subst r r1 r2.
  rewrite !buildReport_failures, !buildReport_sealed_tests.
  cbn [Total Passed Failed].
  rewrite List.filter_app, map_app, !len_app.
  repeat split; lia.
Qed.

(** X4: in the coverage comparison the four sealed counts add up to the
    number of sealed tests that carry one of the four categories, and the
    four open counts to the number of such open tests; tests without a
    category or with another one are in no count, so each sum is at most
    the size of its suite; the four deltas add up to the difference of the
    two sums. *)
Theorem coverage_counts_recognized :
  forall (sealed open : list TestResult.t),
    exists hp ec eh se : CategoryComparison,
      Report.CoverageComparison (buildReport sealed open true)
      = Some (<["security" := se]> (<["error_handling" := eh]>
                (<["edge_case" := ec]> (<["happy_path" := hp]> ∅)))) /\
      Sealed hp + Sealed ec + Sealed eh + Sealed se
      = len (List.filter recognized sealed) /\
      Open hp + Open ec + Open eh + Open se
      = len (List.filter recognized open) /\
      Delta hp + Delta ec + Delta eh + Delta se
      = len (List.filter recognized sealed) - len (List.filter recognized open) /\
      len (List.filter recognized sealed) <= len sealed /\
      len (List.filter recognized open) <= len open.
Proof.
  intros sealed open.
  exists (coverage_entry sealed open "happy_path"),
         (coverage_entry sealed open "edge_case"),
         (coverage_entry sealed open "error_handling"),
         (coverage_entry sealed open "security").
  rewrite buildReport_coverage, build_comparison_inserts.
  pose proof (category_counts_sum sealed) as Hs.
  pose proof (category_counts_sum open) as Ho.
  pose proof (filter_length_le recognized sealed).
  pose proof (filter_length_le recognized open).
  unfold coverage_entry. cbn [Sealed Open Delta].
  repeat split; lia.
Qed.

(** X5: the summary of a report is the headline with the score, the
    indicator and the level of one classification, the sealed line with the
    number of tests whose status is not failed and the total, the open line
    exactly when an open suite was supplied, and then, only when some sealed
    test failed, a header with their number followed by one line with the
    name and the message of each failed sealed test, in input order. *)
Theorem summary_of_report :
  forall (sealed open : list TestResult.t) (hasOpen : bool),
    let report := buildReport sealed open hasOpen in
    let score := GapScore (Report.Report report) in
    summary report
    = [GapScoreLine score (snd (classifyGap score)) (fst (classifyGap score));
       SealedLine (len (List.filter (fun t => negb (is_failed t)) sealed))
                  (len sealed)]
      ++ (if hasOpen
          then [OpenLine (len (List.filter (fun t => negb (is_failed t)) open))
                         (len open)]
          else [])
      ++ failure_block (List.filter is_failed sealed).
Proof.
  intros sealed open hasOpen report score. subst score report.
  unfold summary.
  rewrite buildReport_level, buildReport_sealed_tests, buildReport_open_tests,
    buildReport_failures.
  cbn [Total Passed Failed].
  pose proof (filter_length_split is_failed sealed) as Hs.
  pose proof (filter_length_split is_failed open) as Ho.
  replace (len sealed - len (List.filter is_failed sealed))
    with (len (List.filter (fun t => negb (is_failed t)) sealed)) by lia.
  f_equal. f_equal.
  - destruct hasOpen; [|reflexivity]. cbn [Passed Total].
    replace (len open - len (List.filter is_failed open))
      with (len (List.filter (fun t => negb (is_failed t)) open)) by lia.
    reflexivity.
  - destruct (List.filter is_failed sealed) as [|t l]; [reflexivity|].
    unfold failure_block.
    replace (0 <? len (map to_failure (t :: l))) with true
      by (symmetry; apply Z.ltb_lt; unfold len; simpl; lia).
    unfold len. rewrite length_map, map_map. reflexivity.
Qed.

(** ** More order facts on binary64 *)

Section FloatTransitivity.

Ltac order_cases mx my mz ex ey ez :=
  change (Pos.compare_cont Eq mx my) with (mx ?= my)%positive;
  change (Pos.compare_cont Eq my mz) with (my ?= mz)%positive;
  change (Pos.compare_cont Eq mx mz) with (mx ?= mz)%positive;
  destruct (Z.compare_spec ex ey); destruct (Z.compare_spec ey ez);
  destruct (Z.compare_spec ex ez); try lia; try discriminate;
  try reflexivity; subst;
  destruct (Pos.compare_spec mx my); destruct (Pos.compare_spec my mz);
  destruct (Pos.compare_spec mx mz); simpl; try lia; try discriminate;
  try reflexivity.

Lemma leb_ltb_trans (x y z : float64) :
  leb x y = true -> ltb y z = true -> ltb x z = true.
Proof.
  unfold leb, ltb, SFleb, SFltb.
  destruct x as [sx|sx| |sx mx ex], y as [sy|sy| |sy my ey],
           z as [sz|sz| |sz mz ez]; simpl;
    try discriminate;
    repeat match goal with
           | s : bool |- _ => destruct s
           end; simpl; try discriminate; try reflexivity.
  all: order_cases mx my mz ex ey ez.
Qed.

Lemma leb_trans (x y z : float64) :
  leb x y = true -> leb y z = true -> leb x z = true.
Proof.
  unfold leb, SFleb.
  destruct x as [sx|sx| |sx mx ex], y as [sy|sy| |sy my ey],
           z as [sz|sz| |sz mz ez]; simpl;
    try discriminate;
    repeat match goal with
           | s : bool |- _ => destruct s
           end; simpl; try discriminate; try reflexivity.
  all: order_cases mx my mz ex ey ez.
Qed.

End FloatTransitivity.

(** ** The classifier on every score *)

(** X6: whatever the score, also a negative one, an infinity or NaN, the
    classifier returns the name and the indicator of one and the same row
    of the levels table, so every report carries one of the five level
    names. *)
Theorem classifyGap_in_table :
  (forall score : float64,
      exists l : levelDef,
        In l levels /\ classifyGap score = (name l, indicator l)) /\
  (forall (sealed open : list TestResult.t) (hasOpen : bool),
      In (Level (Report.Report (buildReport sealed open hasOpen)))
         ["perfect"; "minor"; "moderate"; "significant"; "critical"]).
Proof.
  assert (T : forall score : float64,
             exists l : levelDef,
               In l levels /\ classifyGap score = (name l, indicator l)).
  { intros score. unfold classifyGap, levels.
    cbn [classifyGap_loop threshold name indicator].
    destruct (leb score (of_int 0));
      [eexists; split; [left; reflexivity|reflexivity]|].
    destruct (leb score (of_int 15));
      [eexists; split; [right; left; reflexivity|reflexivity]|].
    destruct (leb score (of_int 30));
      [eexists; split; [do 2 right; left; reflexivity|reflexivity]|].
    destruct (leb score (of_int 50));
      [eexists; split; [do 3 right; left; reflexivity|reflexivity]|].
    destruct (leb score (of_int 100));
      eexists; (split; [do 4 right; left; reflexivity|reflexivity]). }
  split; [exact T|].
  intros sealed open hasOpen. rewrite buildReport_level.
  destruct (T (GapScore (Report.Report (buildReport sealed open hasOpen))))
    as (l & Hin & ->).
  cbn [fst]. unfold levels in Hin. cbn [In] in Hin.
  destruct Hin as [<-|[<-|[<-|[<-|[<-|[]]]]]]; cbn [name In]; tauto.
Qed.

(** X7: the classifier is monotone: a score that is less than or equal to
    another never gets a more severe level. *)
Theorem classifyGap_monotone :
  forall s1 s2 : float64,
    leb s1 s2 = true ->
    severity (fst (classifyGap s1)) <= severity (fst (classifyGap s2)).
Proof.
  intros s1 s2 H. rewrite !classifyGap_chain.
  pose proof (leb_trans s1 s2 (of_int 0) H) as T0.
  pose proof (leb_trans s1 s2 (of_int 15) H) as T15.
  pose proof (leb_trans s1 s2 (of_int 30) H) as T30.
  pose proof (leb_trans s1 s2 (of_int 50) H) as T50.
  destruct (leb s2 (of_int 0)); [rewrite T0 by reflexivity; reflexivity|].
  destruct (leb s2 (of_int 15));
    [rewrite T15 by reflexivity; destruct (leb s1 (of_int 0));
     vm_compute; discriminate|].
  destruct (leb s2 (of_int 30));
    [rewrite T30 by reflexivity;
     destruct (leb s1 (of_int 0)), (leb s1 (of_int 15));
     vm_compute; discriminate|].
  destruct (leb s2 (of_int 50));
    [rewrite T50 by reflexivity;
     destruct (leb s1 (of_int 0)), (leb s1 (of_int 15)), (leb s1 (of_int 30));
     vm_compute; discriminate|].
  destruct (leb s1 (of_int 0)), (leb s1 (of_int 15)), (leb s1 (of_int 30)),
    (leb s1 (of_int 50)); vm_compute; discriminate.
Qed.

Lemma classifyGap_monotone_witness :
  severity (fst (classifyGap (decimal1 150)))
  <= severity (fst (classifyGap (decimal1 151))).
Proof.
  apply (classifyGap_monotone (decimal1 150) (decimal1 151)).
  vm_compute; reflexivity.
Defined.

(** X8: the shell classifier and the Go classifier agree on every score of
    a whole number of tenths from 0.0 to 100.0. *)
Theorem classifiers_agree_on_tenths :
  forall k : Z,
    0 <= k <= 1000 -> Sh.classify k = classifyGap (decimal1 k).
Proof.
  assert (A : all_below (Z.to_nat 1001) levels_agree = true)
    by (vm_compute; reflexivity).
  intros k Hk.
  pose proof (all_below_spec _ _ A k ltac:(rewrite Z2Nat.id; lia)) as H.
  unfold levels_agree in H. now apply bool_decide_eq_true_1 in H.
Qed.

Lemma classifiers_agree_on_tenths_witness :
  Sh.classify 151 = classifyGap (decimal1 151).
Proof. apply (classifiers_agree_on_tenths 151). lia. Defined.

(** X9: rounding is idempotent on the scores it produces: [round1] of a
    score of a whole number of tenths from 0.0 to 100.0 is that score. *)
Theorem round1_idempotent_on_tenths :
  forall k : Z, 0 <= k <= 1000 -> round1 (decimal1 k) = decimal1 k.
Proof.
  assert (A : all_below (Z.to_nat 1001) round1_fixes = true)
    by (vm_compute; reflexivity).
  intros k Hk. apply same_float_eq.
  exact (all_below_spec _ _ A k ltac:(rewrite Z2Nat.id; lia)).
Qed.

Lemma round1_idempotent_on_tenths_witness :
  round1 (decimal1 111) = decimal1 111.
Proof. apply (round1_idempotent_on_tenths 111). lia. Defined.

(** ** Runs of main *)

Section MoreRuns.

Variable ReadFile : string -> option string.
Variable Unmarshal : string -> option inputFile.
Variable MarshalIndent : Report.t -> option string.



(** The part of [main] after the input is read. *)
Lemma main_unfold (sealedPath openPath format : string)
      (hasThreshold : bool) (thresholdVal : float64) :
  main ReadFile Unmarshal MarshalIndent sealedPath openPath format
       hasThreshold thresholdVal
  = if bool_decide (sealedPath = EmptyString)
    then {| stdout := []; stderr := [ErrSealedRequired; ErrUsage];
            exit_code := 2 |}
    else
      match loadResults ReadFile Unmarshal sealedPath with
      | None => fatal ErrLoadingSealed
      | Some sealed =>
          let hasOpen := negb (bool_decide (openPath = EmptyString)) in
          match (if hasOpen then loadResults ReadFile Unmarshal openPath
                 else Some []) with
          | None => fatal ErrLoadingOpen
          | Some open =>
              let report := buildReport sealed open hasOpen in
              match render MarshalIndent format report with
              | None => fatal ErrMarshaling
              | Some out =>
                  {| stdout := out; stderr := [];
                     exit_code :=
                       gate_code hasThreshold thresholdVal
                                 (GapScore (Report.Report report)) |}
              end
          end
      end.
Proof. reflexivity. Qed.

End MoreRuns.


(** X11: under the summary format the marshaler is never consulted: the
    outcome of the run is the same whatever [json.MarshalIndent] would do,
    and it is never the marshaling error. *)
Theorem summary_never_marshals :
  forall (ReadFile : string -> option string)
         (Unmarshal : string -> option inputFile)
         (MarshalIndent MarshalIndent' : Report.t -> option string)
         (sealedPath openPath : string)
         (hasThreshold : bool) (thresholdVal : float64),
    main ReadFile Unmarshal MarshalIndent sealedPath openPath "summary"
         hasThreshold thresholdVal
    = main ReadFile Unmarshal MarshalIndent' sealedPath openPath "summary"
           hasThreshold thresholdVal /\
    stderr (main ReadFile Unmarshal MarshalIndent sealedPath openPath "summary"
                 hasThreshold thresholdVal) <> [ErrMarshaling].
Proof.
  intros ReadFile Unmarshal MarshalIndent MarshalIndent' sealedPath openPath
         hasThreshold thresholdVal.
  rewrite !main_unfold. unfold render.
  rewrite !(bool_decide_eq_true_2 ("summary" = "summary") eq_refl).
  split; [reflexivity|].
  case_bool_decide; [discriminate|].
  destruct (loadResults ReadFile Unmarshal sealedPath); [|discriminate].
  cbv zeta.
  destruct (if negb (bool_decide (openPath = EmptyString))
            then loadResults ReadFile Unmarshal openPath else Some []);
    discriminate.
Qed.

(** X12: the format value is not validated: every value other than
    summary, whether json or anything else, gives the JSON run. *)
Theorem unknown_format_is_json :
  forall (ReadFile : string -> option string)
         (Unmarshal : string -> option inputFile)
         (MarshalIndent : Report.t -> option string)
         (sealedPath openPath format : string)
         (hasThreshold : bool) (thresholdVal : float64),
    format <> "summary" ->
    main ReadFile Unmarshal MarshalIndent sealedPath openPath format
         hasThreshold thresholdVal
    = main ReadFile Unmarshal MarshalIndent sealedPath openPath "json"
           hasThreshold thresholdVal.
Proof.
  intros ReadFile Unmarshal MarshalIndent sealedPath openPath format
         hasThreshold thresholdVal H.
  rewrite !main_unfold. unfold render.
  rewrite (bool_decide_eq_false_2 _ H).
  rewrite (bool_decide_eq_false_2 ("json" = "summary")) by discriminate.
  reflexivity.
Qed.

Lemma unknown_format_is_json_witness :
  main sample_ReadFile (sample_Unmarshal (suite 2 16)) sample_MarshalIndent
       "sealed.json" EmptyString "yaml" false zero
  = main sample_ReadFile (sample_Unmarshal (suite 2 16)) sample_MarshalIndent
         "sealed.json" EmptyString "json" false zero.
Proof.
  apply (unknown_format_is_json
           sample_ReadFile (sample_Unmarshal (suite 2 16)) sample_MarshalIndent
           "sealed.json" EmptyString "yaml" false zero).
  discriminate.
Defined.

(** X14: raising the threshold never turns a passing run into a failing
    one: if a run exits 0 under a threshold, it exits 0 under every
    threshold that is greater than or equal to it. *)
Theorem raising_threshold_keeps_pass :
  forall (ReadFile : string -> option string)
         (Unmarshal : string -> option inputFile)
         (MarshalIndent : Report.t -> option string)
         (sealedPath openPath format : string)
         (t1 t2 : float64),
    leb t1 t2 = true ->
    exit_code (main ReadFile Unmarshal MarshalIndent sealedPath openPath
                    format true t1) = 0 ->
    exit_code (main ReadFile Unmarshal MarshalIndent sealedPath openPath
                    format true t2) = 0.
Proof.
  intros ReadFile Unmarshal MarshalIndent sealedPath openPath format t1 t2 Hle.
  rewrite !main_unfold.
  case_bool_decide; [discriminate|].
  destruct (loadResults ReadFile Unmarshal sealedPath) as [sealed|];
    [|discriminate].
  cbv zeta.
  destruct (if negb (bool_decide (openPath = EmptyString))
            then loadResults ReadFile Unmarshal openPath else Some [])
    as [open|]; [|discriminate].
  destruct (render MarshalIndent format _) as [out|]; [|discriminate].
  cbn [exit_code]. unfold gate_code. cbn [andb].
  set (score := GapScore _).
  destruct (gtb score t2) eqn:G2; [|reflexivity].
  unfold gtb in *. fold (ltb t2 score) in G2.
  pose proof (leb_ltb_trans t1 t2 score Hle G2) as G1.
  unfold ltb in G1. rewrite G1. discriminate.
Qed.

Lemma raising_threshold_keeps_pass_witness :
  exit_code (main sample_ReadFile (sample_Unmarshal (suite 2 16))
                  sample_MarshalIndent "sealed.json" EmptyString "json"
                  true (decimal1 150)) = 0.
Proof.
  apply (raising_threshold_keeps_pass
           sample_ReadFile (sample_Unmarshal (suite 2 16)) sample_MarshalIndent
           "sealed.json" EmptyString "json" (decimal1 111) (decimal1 150)).
  - vm_compute; reflexivity.
  - vm_compute; reflexivity.
Defined.

(** X15: a threshold that is NaN or plus infinity switches the gate off,
    and a score that is NaN never fails it: the exit code is 0 in each
    case. *)
Theorem gate_off_at_nan_and_infinity :
  forall (hasThreshold : bool) (x : float64),
    gate_code hasThreshold S754_nan x = 0 /\
    gate_code hasThreshold (S754_infinity false) x = 0 /\
    gate_code hasThreshold x S754_nan = 0.
Proof.
  intros hasThreshold x. unfold gate_code, gtb, SFltb.
  destruct hasThreshold; cbn [andb]; [|repeat split].
  destruct x as [s|s| |s m e]; simpl; repeat split; destruct s; reflexivity.
Qed.

(** ** The shell validator *)

Section Shell.

Lemma wrap64_small (z : Z) : - 2 ^ 63 <= z < 2 ^ 63 -> Sh.wrap64 z = z.
Proof. intros Hz. unfold Sh.wrap64. rewrite Z.mod_small by lia. lia. Qed.

Lemma sh_classify_monotone (x y : Z) :
  0 <= x <= y ->
  severity (fst (Sh.classify x)) <= severity (fst (Sh.classify y)).
Proof.
  intros H. unfold Sh.classify.
  destruct (Z.eqb_spec x 0), (Z.eqb_spec y 0),
    (Z.leb_spec x 150), (Z.leb_spec y 150),
    (Z.leb_spec x 300), (Z.leb_spec y 300),
    (Z.leb_spec x 500), (Z.leb_spec y 500);
    try lia; vm_compute; discriminate.
Qed.

Lemma sh_classify_perfect (x : Z) :
  fst (Sh.classify x) = "perfect" <-> x = 0.
Proof.
  unfold Sh.classify.
  destruct (Z.eqb_spec x 0) as [->|N]; [split; reflexivity|].
  destruct (x <=? 150); [split; [discriminate|contradiction]|].
  destruct (x <=? 300); [split; [discriminate|contradiction]|].
  destruct (x <=? 500); split; try discriminate; contradiction.
Qed.

Lemma sh_run_without_threshold (total failed : Z) :
  Sh.wrap64 total <> 0 ->
  Sh.gap_score [Sh.Int total; Sh.Int failed]
  = let x10 := Sh.GAP_SCORE_X10 total failed in
    {| Sh.stdout :=
         [Sh.GapScore (x10 ÷ 10) (Z.rem x10 10)
                      (snd (Sh.classify x10)) (fst (Sh.classify x10));
          Sh.Sealed (Sh.wrap64 (Sh.wrap64 total - Sh.wrap64 failed))
                    (Sh.Int total) (Sh.Int failed)];
       Sh.exit_code := 0 |}.
Proof.
  intros H. pose proof (wrap64_nonzero _ H) as H0.
  unfold Sh.gap_score. cbn [head Sh.test_eq_zero].
  destruct (Z.eqb_spec total 0) as [E|_]; [contradiction|].
  destruct (Z.eqb_spec (Sh.wrap64 total) 0) as [E|_]; [contradiction|].
  cbv zeta. destruct (Sh.classify _) as [level ind]. reflexivity.
Qed.

End Shell.

(** X16: the shell validator exits with code 2 exactly when it gets fewer
    than two arguments, and then prints only its usage; arguments after the
    third are ignored. *)
Theorem sh_argument_handling :
  forall args : list Sh.Arg,
    (Sh.exit_code (Sh.gap_score args) = 2 <-> (length args < 2)%nat) /\
    (Sh.stdout (Sh.gap_score args) = [Sh.Usage] <-> (length args < 2)%nat) /\
    (forall a b c rest,
        Sh.gap_score (a :: b :: c :: rest) = Sh.gap_score [a; b; c]).
Proof.
  intros args. split; [|split; [|reflexivity]].
  - destruct args as [|a [|b rest]]; cbn [length];
      [split; [lia|reflexivity]|split; [lia|reflexivity]|].
    split; [|lia]. unfold Sh.gap_score, Sh.stopped.
    destruct (Sh.test_eq_zero a); [discriminate|].
    destruct a as [total|ta], b as [failed|tb]; try discriminate.
    destruct (Sh.wrap64 total =? 0); [discriminate|].
    destruct (Sh.classify _) as [level ind].
    destruct (head rest) as [[t|tt]|]; [destruct (_ <? _)| |]; discriminate.
  - destruct args as [|a [|b rest]]; cbn [length];
      [split; [lia|reflexivity]|split; [lia|reflexivity]|].
    split; [|lia]. unfold Sh.gap_score, Sh.stopped.
    destruct (Sh.test_eq_zero a); [discriminate|].
    destruct a as [total|ta], b as [failed|tb]; try discriminate.
    destruct (Sh.wrap64 total =? 0); [discriminate|].
    destruct (Sh.classify _) as [level ind].
    destruct (head rest) as [[t|tt]|]; [destruct (_ <? _)| |]; discriminate.
Qed.

(** X17: for a positive total and a failed count between 0 and the total,
    the shell validator prints a score between 0.0 and 100.0 whose decimal
    is a single digit, together making the floor of the ratio in tenths,
    classified on those tenths, and a passed count that is the total minus
    the failed count. *)
Theorem sh_score_bounds :
  forall total failed : Z,
    0 < total < 2 ^ 53 -> 0 <= failed <= total ->
    exists whole decimal : Z,
      Sh.stdout (Sh.gap_score [Sh.Int total; Sh.Int failed])
      = [Sh.GapScore whole decimal
                     (snd (Sh.classify (10 * whole + decimal)))
                     (fst (Sh.classify (10 * whole + decimal)));
         Sh.Sealed (total - failed) (Sh.Int total) (Sh.Int failed)] /\
      0 <= whole <= 100 /\ 0 <= decimal <= 9 /\
      (whole = 100 -> decimal = 0) /\
      10 * whole + decimal = 1000 * failed / total.
Proof.
  intros total failed Ht Hf.
  assert (P : 2 ^ 53 < 2 ^ 63) by (vm_compute; reflexivity).
  rewrite sh_run_without_threshold by (rewrite wrap64_small; lia).
  cbv zeta. cbn [Sh.stdout].
  rewrite shell_score_is_floor by assumption.
  set (x := 1000 * failed / total).
  assert (Hx : 0 <= x <= 1000).
  { subst x. split; [apply Z.div_pos; lia|].
    apply Z.div_le_upper_bound; nia. }
  rewrite (wrap64_small total), (wrap64_small failed) by lia.
  rewrite (wrap64_small (total - failed)) by lia.
  exists (x ÷ 10), (Z.rem x 10).
  pose proof (Z.quot_rem' x 10) as Q.
  rewrite Z.quot_div_nonneg in * by lia.
  rewrite Z.rem_mod_nonneg in * by lia.
  pose proof (Z.mod_pos_bound x 10 ltac:(lia)) as B.
  replace (10 * (x / 10) + x mod 10) with x by lia.
  split; [reflexivity|].
  assert (0 <= x / 10 <= 100).
  { split; [apply Z.div_pos; lia|apply Z.div_le_upper_bound; lia]. }
  repeat split; try lia.
Qed.

Lemma sh_score_bounds_witness :
  exists whole decimal : Z,
    Sh.stdout (Sh.gap_score [Sh.Int 18; Sh.Int 2])
    = [Sh.GapScore whole decimal
                   (snd (Sh.classify (10 * whole + decimal)))
                   (fst (Sh.classify (10 * whole + decimal)));
       Sh.Sealed (18 - 2) (Sh.Int 18) (Sh.Int 2)] /\
    0 <= whole <= 100 /\ 0 <= decimal <= 9 /\
    (whole = 100 -> decimal = 0) /\
    10 * whole + decimal = 1000 * 2 / 18.
Proof.
  apply (sh_score_bounds 18 2).
  - split; [lia|vm_compute; reflexivity].
  - lia.
Defined.

(** X18: for a positive total below 2^53 and a failed count between 0 and
    the total, the shell validator reports the level perfect exactly when
    fewer than one sealed test in a thousand failed, so also for a suite
    with failures when the total is more than a thousand times their
    number. *)
Theorem sh_perfect_iff :
  forall total failed : Z,
    0 < total < 2 ^ 53 -> 0 <= failed <= total ->
    fst (Sh.classify (Sh.GAP_SCORE_X10 total failed)) = "perfect"
    <-> 1000 * failed < total.
Proof.
  intros total failed Ht Hf.
  rewrite sh_classify_perfect, shell_score_is_floor by assumption.
  split.
  - intros H. apply Z.div_small_iff in H; lia.
  - intros H. apply Z.div_small. lia.
Qed.

Lemma sh_perfect_iff_witness :
  fst (Sh.classify (Sh.GAP_SCORE_X10 2000 1)) = "perfect" <-> 1000 * 1 < 2000.
Proof.
  apply (sh_perfect_iff 2000 1).
  - split; [lia|vm_compute; reflexivity].
  - lia.
Defined.

(** X19: for a fixed positive total below 2^53 and failed counts between
    0 and the total, more failed tests never give the shell validator a
    lower score or a less severe level. *)
Theorem sh_more_failures_not_better :
  forall total failed failed' : Z,
    0 < total < 2 ^ 53 -> 0 <= failed -> failed <= failed' -> failed' <= total ->
    Sh.GAP_SCORE_X10 total failed <= Sh.GAP_SCORE_X10 total failed' /\
    severity (fst (Sh.classify (Sh.GAP_SCORE_X10 total failed)))
    <= severity (fst (Sh.classify (Sh.GAP_SCORE_X10 total failed'))).
Proof.
  intros total failed failed' Ht H0 H1 H2.
  rewrite !shell_score_is_floor by lia.
  assert (M : 1000 * failed / total <= 1000 * failed' / total)
    by (apply Z.div_le_mono; lia).
  split; [exact M|].
  apply sh_classify_monotone. split; [apply Z.div_pos; lia|exact M].
Qed.

Lemma sh_more_failures_not_better_witness :
  Sh.GAP_SCORE_X10 18 2 <= Sh.GAP_SCORE_X10 18 3.
Proof.
  refine (proj1 (sh_more_failures_not_better 18 2 3 _ _ _ _)); lia.
Defined.

(** X20: with integer arguments, a total that does not read as 0 modulo
    2^64 and an integer threshold, the shell validator prints exactly three
    lines and its last line agrees with its exit code: a FAIL line with
    exit code 1 or a PASS line with exit code 0, after the score line and
    the sealed line.  With a threshold written with a decimal point it
    prints the score line and the sealed line only and stops with status
    1. *)
Theorem sh_verdict_matches_exit :
  forall total failed : Z,
    Sh.wrap64 total <> 0 ->
    (forall t : Z,
        let run := Sh.gap_score [Sh.Int total; Sh.Int failed; Sh.Int t] in
        exists score sealed verdict,
          Sh.stdout run = [score; sealed; verdict] /\
          ((Sh.exit_code run = 1 /\
            exists w d, verdict = Sh.Fail w d (Sh.Int t)) \/
           (Sh.exit_code run = 0 /\
            exists w d, verdict = Sh.Pass w d (Sh.Int t)))) /\
    (forall text : string,
        let run := Sh.gap_score [Sh.Int total; Sh.Int failed; Sh.Decimal text] in
        Sh.stdout run = Sh.stdout (Sh.gap_score [Sh.Int total; Sh.Int failed]) /\
        length (Sh.stdout run) = 2%nat /\
        Sh.exit_code run = 1).
Proof.
  intros total failed H. pose proof (wrap64_nonzero _ H) as H0.
  split.
  - intros t run. subst run. unfold Sh.gap_score. cbn [head Sh.test_eq_zero].
    destruct (Z.eqb_spec total 0) as [E|_]; [contradiction|].
    destruct (Z.eqb_spec (Sh.wrap64 total) 0) as [E|_]; [contradiction|].
    destruct (Sh.classify _) as [level ind].
    destruct (_ <? _); cbn [Sh.stdout Sh.exit_code app];
      do 3 eexists; (split; [reflexivity|]); [left|right]; eauto.
  - intros text run. subst run. unfold Sh.gap_score. cbn [head Sh.test_eq_zero].
    destruct (Z.eqb_spec total 0) as [E|_]; [contradiction|].
    destruct (Z.eqb_spec (Sh.wrap64 total) 0) as [E|_]; [contradiction|].
    destruct (Sh.classify _) as [level ind].
    repeat split.
Qed.

Lemma sh_verdict_matches_exit_witness :
  Sh.exit_code (Sh.gap_score [Sh.Int 18; Sh.Int 2; Sh.Decimal "11.1"]) = 1.
Proof.
  refine (proj2 (proj2 (proj2 (sh_verdict_matches_exit 18 2 _) "11.1"))).
  vm_compute. discriminate.
Defined.

(** ** A suite without failures *)

Section NoFailures.

Lemma digits2_pos_bounds (p : positive) :
  2 ^ (Z.pos (digits2_pos p) - 1) <= Z.pos p < 2 ^ Z.pos (digits2_pos p).
Proof.
  induction p as [p IH|p IH|]; cbn [digits2_pos].
  - rewrite Pos2Z.inj_succ.
    replace (Z.succ (Z.pos (digits2_pos p)) - 1)
      with (Z.succ (Z.pos (digits2_pos p) - 1)) by lia.
    rewrite !Z.pow_succ_r by lia. lia.
  - rewrite Pos2Z.inj_succ.
    replace (Z.succ (Z.pos (digits2_pos p)) - 1)
      with (Z.succ (Z.pos (digits2_pos p) - 1)) by lia.
    rewrite !Z.pow_succ_r by lia. lia.
  - simpl. lia.
Qed.

Lemma digits2_pos_shift (p k : positive) :
  digits2_pos (Pos.iter xO p k) = (digits2_pos p + k)%positive.
Proof.
  induction k as [|k IH] using Pos.peano_ind.
  - simpl. lia.
  - rewrite Pos.iter_succ. cbn [digits2_pos]. rewrite IH. lia.
Qed.

(** A mantissa of 53 bits with an exponent in range needs no rounding. *)
Lemma binary_round_aux_exact (m : positive) (e : Z) :
  Z.pos (digits2_pos m) = 53 -> -1074 <= e <= 971 ->
  binary_round_aux 53 1024 false (Z.pos m) e loc_Exact = S754_finite false m e.
Proof.
  intros Hd He.
  assert (F : fexp 53 1024 (Zdigits2 (Z.pos m) + e) - e = 0).
  { unfold fexp, emin. cbn [Zdigits2]. rewrite Hd. lia. }
  unfold binary_round_aux, shr_fexp. rewrite F.
  cbn [shr shr_record_of_loc shr_m loc_of_shr_record round_nearest_even].
  rewrite F. cbn [shr shr_record_of_loc shr_m].
  replace (e <=? 1024 - 53) with true by (symmetry; apply Z.leb_le; lia).
  reflexivity.
Qed.

(** The conversion of a positive integer below [2^53] is a positive
    finite number. *)
Lemma of_int_pos_finite (n : Z) :
  0 < n < 2 ^ 53 -> exists m e, of_int n = S754_finite false m e.
Proof.
  intros Hn. unfold of_int, prec, emax. destruct n as [|p|p]; try lia.
  pose proof (digits2_pos_bounds p) as B.
  set (d := Z.pos (digits2_pos p)) in *.
  assert (Hd : 1 <= d <= 53).
  { split; [subst d; lia|].
    destruct (Z_le_gt_dec d 53) as [L|G]; [exact L|].
    assert (2 ^ 53 <= 2 ^ (d - 1)) by (apply Z.pow_le_mono_r; lia). lia. }
  cbn [binary_normalize]. unfold binary_round.
  assert (F : fexp 53 1024 (Z.pos (digits2_pos p) + 0) = d - 53).
  { unfold fexp, emin. fold d. lia. }
  rewrite F. unfold shl_align.
  destruct (d - 53 - 0) as [|k|k] eqn:E; try lia.
  - exists p, 0. apply binary_round_aux_exact; [fold d|]; lia.
  - exists (Pos.iter xO p k), (d - 53).
    apply binary_round_aux_exact; [|lia].
    rewrite digits2_pos_shift. rewrite Pos2Z.inj_add. fold d. lia.
Qed.

Lemma filter_none {A : Type} (p : A -> bool) (l : list A) :
  List.Forall (fun x => p x = false) l -> List.filter p l = [].
Proof.
  induction 1 as [|x l Hx _ IH]; simpl; [reflexivity|]. now rewrite Hx.
Qed.

End NoFailures.

(** X21: a sealed result set of fewer than 2^53 tests none of which has the
    status failed gets the score 0.0 exactly and the level perfect, lists no
    failure, and passes every threshold that is not below zero; this holds
    for the empty set as well. *)
Theorem no_failed_test_scores_zero :
  forall (sealed open : list TestResult.t) (hasOpen : bool),
    len sealed < 2 ^ 53 ->
    List.Forall (fun t => TestResult.Status t <> "failed") sealed ->
    let report := buildReport sealed open hasOpen in
    Report.Report report = {| GapScore := zero; Level := "perfect" |} /\
    Report.Failures report = [] /\
    Passed (Report.SealedTests report) = Total (Report.SealedTests report) /\
    forall hasThreshold thresholdVal,
      leb zero thresholdVal = true ->
      gate_code hasThreshold thresholdVal (GapScore (Report.Report report)) = 0.
Proof.
  intros sealed open hasOpen Hlen Hall report. subst report.
  assert (Hf : List.filter is_failed sealed = []).
  { apply filter_none. eapply List.Forall_impl; [|exact Hall].
    intros t Ht. now apply is_failed_false. }
  assert (Hs : GapScore (Report.Report (buildReport sealed open hasOpen)) = zero).
  { rewrite buildReport_score, Hf.
    destruct (Z.ltb_spec 0 (len sealed)) as [Hpos|_]; [|reflexivity].
    destruct (of_int_pos_finite (len sealed) ltac:(lia)) as (m & e & ->).
    vm_compute. reflexivity. }
  pose proof (buildReport_level sealed open hasOpen) as Hl.
  rewrite Hs in Hl.
  rewrite buildReport_failures, buildReport_sealed_tests, Hf.
  destruct (Report.Report (buildReport sealed open hasOpen)) as [s l].
  cbn [GapScore Level] in *. subst s.
  repeat split.
  - rewrite Hl. vm_compute. reflexivity.
  - cbn [Passed Total]. unfold len at 2. simpl. lia.
  - intros hasThreshold thresholdVal Ht. now apply gate_code_le.
Qed.

Lemma no_failed_test_scores_zero_witness :
  Report.Report (buildReport (suite 0 5) [] false)
  = {| GapScore := zero; Level := "perfect" |}.
Proof.
  refine (proj1 (no_failed_test_scores_zero (suite 0 5) [] false _ _)).
  - vm_compute. reflexivity.
  - repeat constructor; discriminate.
Defined.

Lemma shell_score_below_spec_witness :
  Sh.GAP_SCORE_X10 3 2 <= spec_score_x10 2 3 <= Sh.GAP_SCORE_X10 3 2 + 1.
Proof.
  apply (shell_score_below_spec 3 2).
  - split; [lia|vm_compute; reflexivity].
  - lia.
Defined.

Lemma go_score_exact_below_80_witness :
  GapScore (Report.Report (buildReport (suite 2 16) [] false))
  = decimal1 (spec_score_x10
                (Failed (Report.SealedTests (buildReport (suite 2 16) [] false)))
                (Total (Report.SealedTests (buildReport (suite 2 16) [] false)))).
Proof.
  apply (go_score_exact_below_80 (suite 2 16) [] false).
  split; vm_compute; reflexivity.
Defined.

(** ** Small suites *)

Section SmallSuites.

Lemma go_small_score (total failed : Z) :
  0 < total < 80 -> 0 <= failed <= total ->
  round1 (mul (div (of_int failed) (of_int total)) (of_int 100))
  = decimal1 (spec_score_x10 failed total).
Proof.
  intros Ht Hf. apply same_float_eq.
  pose proof (all_below_spec _ _ go_scores_below_80 total
                             ltac:(rewrite Z2Nat.id; lia)) as H1.
  cbv beta in H1.
  pose proof (all_below_spec _ _ H1 failed ltac:(rewrite Z2Nat.id; lia)) as H2.
  cbv beta in H2.
  replace (0 <? total) with true in H2 by (symmetry; apply Z.ltb_lt; lia).
  replace (failed <=? total) with true in H2 by (symmetry; apply Z.leb_le; lia).
  exact H2.
Qed.

Lemma spec_score_x10_range (failed total : Z) :
  0 < total -> 0 <= failed <= total ->
  0 <= spec_score_x10 failed total <= 1000.
Proof.
  intros Ht Hf. unfold spec_score_x10. split.
  - apply Z.div_pos; lia.
  - assert ((2000 * failed + total) / (2 * total) < 1001)
      by (apply Z.div_lt_upper_bound; lia).
    lia.
Qed.

Lemma perfect_tenth (k : Z) :
  0 <= k <= 1000 ->
  fst (classifyGap (decimal1 k)) = "perfect" <-> k = 0.
Proof.
  assert (A : all_below (Z.to_nat 1001) perfect_only_zero = true)
    by (vm_compute; reflexivity).
  intros Hk.
  pose proof (all_below_spec _ _ A k ltac:(rewrite Z2Nat.id; lia)) as H.
  unfold perfect_only_zero in H. apply Bool.eqb_prop in H.
  rewrite <- Z.eqb_eq, <- H. symmetry. apply bool_decide_eq_true.
Qed.

End SmallSuites.

(** X24: for a sealed result set of fewer than 80 tests the level is
    perfect exactly when the report lists no failure. *)
Theorem small_suite_perfect_iff_no_failure :
  forall (sealed open : list TestResult.t) (hasOpen : bool),
    0 < len sealed < 80 ->
    let report := buildReport sealed open hasOpen in
    Level (Report.Report report) = "perfect" <-> Report.Failures report = [].
Proof.
  intros sealed open hasOpen Ht report. subst report.
  rewrite buildReport_level, buildReport_score, buildReport_failures.
  pose proof (filter_length_le is_failed sealed) as Hf.
  replace (0 <? len sealed) with true by (symmetry; apply Z.ltb_lt; lia).
  rewrite go_small_score by lia.
  pose proof (spec_score_x10_range (len (List.filter is_failed sealed))
                                   (len sealed) ltac:(lia) Hf) as Hk.
  rewrite (perfect_tenth _ Hk).
  rewrite (spec_score_x10_nearest (len (List.filter is_failed sealed))
                                  (len sealed) 0 (proj1 Ht)).
  split.
  - intros H. destruct (List.filter is_failed sealed) as [|t l]; [reflexivity|].
    exfalso.
    assert (1 <= len (t :: l)) by (unfold len; cbn [length]; lia). lia.
  - intros H. apply map_eq_nil in H. rewrite H.
    change (len (@nil TestResult.t)) with 0. lia.
Qed.

Lemma small_suite_perfect_iff_no_failure_witness :
  Level (Report.Report (buildReport (suite 0 5) [] false)) = "perfect"
  <-> Report.Failures (buildReport (suite 0 5) [] false) = [].
Proof.
  apply (small_suite_perfect_iff_no_failure (suite 0 5) [] false).
  split; vm_compute; reflexivity.
Defined.
